(** * A shallow embedding of the BACnet test harness

    The repository wraps the third-party BAC0 library in two client classes,
    [BACnetClient] (src/bacnet_client.py) and [EventLoopBACnetClient]
    (src/eventloop_bacnet_client.py), and drives them from pytest fixtures
    (tests/bacnet/conftest.py) and tests (tests/bacnet/test_bacnet_e2e.py).

    The Python methods mutate [self] and call into BAC0, asyncio, threading
    and time.  They are embedded as computations in a state-and-exception
    monad whose state holds the object's attributes, the state of the outside
    world and the trace of everything the method did to the outside world
    (library calls, sleeps, log records), in program order.  BAC0 and the
    asyncio/threading runtime are not part of the repository: they are taken
    as an arbitrary [Environment] of oracles. *)

From Stdlib Require Import ZArith Ascii String List Bool Lia.
From stdpp Require Import base option list strings pretty gmap.

Local Open Scope string_scope.
Local Open Scope Z_scope.

(** ** Python values and exceptions *)

(** Handles of library objects (a BAC0 network, a BAC0 device, an asyncio
    loop, a thread).  Such objects define neither [__bool__] nor [__len__]
    and are truthy; [None] is the absent handle. *)
Definition Handle := N.

(** Python's floating point numbers are kept abstract, together with the
    conversions the code goes through: [float(int)] (which overflows),
    [float(str)] (which fails on a malformed literal) and [str(float)]. *)
Class PyFloats := {
  pyfloat : Type;
  float_of_int : Z -> option pyfloat;
  float_of_str : string -> option pyfloat;
  str_of_float : pyfloat -> string;
}.

Inductive ExnClass :=
| ConnectionError | ValueError | TypeError | RuntimeError | AttributeError
| AssertionError | OverflowError | TimeoutError
| OtherError (name : string).

(** Instances of [Exception].  Asynchronous [BaseException]s
    (KeyboardInterrupt, SystemExit) are outside the model. *)
Record Exn := mkExn { exn_class : ExnClass; exn_msg : string }.

Definition is_Some_dec {A} (o : option A) : bool :=
  match o with Some _ => true | None => false end.

(** [if s:] on an [Optional[str]]: [None] and the empty string are falsy. *)
Definition nonempty (o : option string) : option string :=
  match o with
  | Some s => if String.eqb s "" then None else Some s
  | None => None
  end.

Section Values.
Context `{PyFloats}.

Inductive PyVal :=
| VNone
| VBool (b : bool)
| VInt (z : Z)
| VFloat (f : pyfloat)
| VStr (s : string)
| VObj (o : Handle) (fl : option pyfloat) (repr : string).

(** [VObj o fl repr] is any other object: [fl] is what its [__float__]
    returns, if it has one, and [repr] what [str()] shows. *)

(** [str(v)], as an f-string field [{v}] renders it. *)
Definition py_str (v : PyVal) : string :=
  match v with
  | VNone => "None"
  | VBool true => "True"
  | VBool false => "False"
  | VInt z => pretty z
  | VFloat f => str_of_float f
  | VStr s => s
  | VObj _ _ r => r
  end.

(** The builtin [float(v)]. *)
Definition py_float (v : PyVal) : Exn + PyVal :=
  match v with
  | VNone =>
      inl (mkExn TypeError
             "float() argument must be a string or a real number, not 'NoneType'")
  | VBool b =>
      match float_of_int (if b then 1 else 0) with
      | Some f => inr (VFloat f)
      | None => inl (mkExn OverflowError "int too large to convert to float")
      end
  | VInt z =>
      match float_of_int z with
      | Some f => inr (VFloat f)
      | None => inl (mkExn OverflowError "int too large to convert to float")
      end
  | VFloat f => inr (VFloat f)
  | VStr s =>
      match float_of_str s with
      | Some f => inr (VFloat f)
      | None => inl (mkExn ValueError ("could not convert string to float: '" ++ s ++ "'"))
      end
  | VObj _ (Some f) _ => inr (VFloat f)
  | VObj _ None _ =>
      inl (mkExn TypeError "float() argument must be a string or a real number")
  end.

(** ** The trace *)

Inductive Level := INFO | WARNING | ERROR.

(** A log record keeps the pieces of its f-string: literal text and the
    formatted fields. *)
Inductive Part :=
| Lit (s : string)
| Fld (v : PyVal)
| FldExn (e : Exn)
| FldDict (d : gmap string PyVal).

Inductive Event :=
| EvLog (logger : string) (lvl : Level) (msg : list Part)
| EvSleep (secs : Z)
| EvLite (ip : string)
| EvConnect (ip bbmd : string) (ttl : Z)
| EvDevice (addr : string) (id : Z) (net : Handle)
| EvDevName (dev : Handle)
| EvGetItem (dev : Handle) (point : string)
| EvSetItem (dev : Handle) (point : string) (v : PyVal)
| EvRead (net : Handle) (request : string)
| EvWrite (net : Handle) (request : string)
| EvWhois (net : Handle)
| EvDevices (net : Handle)
| EvDisconnect (net : Handle)
| EvThreadStart (thread : Handle)
| EvLoopRun (loop : Handle)
| EvLoopStop (loop : Handle)
| EvThreadJoin (thread : Handle).

(** The events that reach the BACnet network: the calls into BAC0. *)
Definition is_network (ev : Event) : bool :=
  match ev with
  | EvLite _ | EvConnect _ _ _ | EvDevice _ _ _ | EvDevName _
  | EvGetItem _ _ | EvSetItem _ _ _ | EvRead _ _ | EvWrite _ _
  | EvWhois _ | EvDevices _ | EvDisconnect _ => true
  | _ => false
  end.

Definition network_events (tr : list Event) : list Event :=
  List.filter is_network tr.

(** ** The environment: BAC0, asyncio and threading *)

Class Environment := {
  World : Type;
  (* BAC0.lite(ip=...) and BAC0.connect(ip=..., bbmdAddress=..., bbmdTTL=...) *)
  BAC0_lite : string -> World -> (Exn + Handle) * World;
  BAC0_connect : string -> string -> Z -> World -> (Exn + Handle) * World;
  (* BAC0.device(address, device_id, network); None is a falsy result *)
  BAC0_device : string -> Z -> Handle -> World -> (Exn + option Handle) * World;
  (* device.properties.name *)
  device_name : Handle -> World -> (Exn + PyVal) * World;
  (* device[point] and device[point] = value *)
  device_getitem : Handle -> string -> World -> (Exn + PyVal) * World;
  device_setitem : Handle -> string -> PyVal -> World -> (Exn + unit) * World;
  (* network.read(request), network.write(request), network.whois(),
     network.devices, network.disconnect() *)
  bacnet_read : Handle -> string -> World -> (Exn + PyVal) * World;
  bacnet_write : Handle -> string -> World -> (Exn + PyVal) * World;
  bacnet_whois : Handle -> World -> (Exn + unit) * World;
  bacnet_devices : Handle -> World -> (Exn + list PyVal) * World;
  bacnet_disconnect : Handle -> World -> (Exn + unit) * World;
  (* threading.Thread(target=self._run_event_loop, daemon=True) and its
     start() *)
  thread_new : World -> Handle * World;
  thread_start : Handle -> World -> (Exn + unit) * World;
  (* the wait of at most 5 s for the new thread to publish its loop in
     self.loop: the oracle receives self.loop as it was and answers
     self.loop as it is when the wait is over *)
  await_loop : option Handle -> World -> option Handle * World;
  thread_is_alive : Handle -> World -> bool;
  thread_join : Handle -> World -> (Exn + unit) * World;
  (* loop.is_running(), loop.call_soon_threadsafe(loop.stop) *)
  loop_is_running : Handle -> World -> bool;
  loop_stop : Handle -> World -> (Exn + unit) * World;
  (* asyncio.run_coroutine_threadsafe(coro, loop) with future.result(10):
     inr tt when the loop runs the coroutine in time, inl e when the wait
     raises instead *)
  loop_run : Handle -> World -> (Exn + unit) * World;
}.


(** ** The state-and-exception monad *)

(** [C] is the record of the object's attributes. *)
Record St `{Environment} (C : Type) := mkSt {
  self : C;
  world : World;
  trace : list Event;
}.
Arguments mkSt {_ _} _ _ _.
Arguments self {_ _} _.
Arguments world {_ _} _.
Arguments trace {_ _} _.

Context `{Environment}.

Definition M (C A : Type) : Type := St C -> (Exn + A) * St C.

Definition ret {C A} (a : A) : M C A := fun s => (inr a, s).

Definition bind {C A B} (m : M C A) (k : A -> M C B) : M C B :=
  fun s => match m s with
           | (inr a, s') => k a s'
           | (inl e, s') => (inl e, s')
           end.

Definition raise {C A} (e : Exn) : M C A := fun s => (inl e, s).

(** [try: m except Exception as e: h e]; a bare [except:] is the same in
    this model, where every exception is an [Exception]. *)
Definition try_except {C A} (m : M C A) (h : Exn -> M C A) : M C A :=
  fun s => match m s with
           | (inr a, s') => (inr a, s')
           | (inl e, s') => h e s'
           end.

Definition get {C} : M C C := fun s => (inr (self s), s).

Definition put {C} (c : C) : M C unit :=
  fun s => (inr tt, mkSt c (world s) (trace s)).

Definition emit {C} (ev : Event) : M C unit :=
  fun s => (inr tt, mkSt (self s) (world s) (trace s ++ [ev])).

(** A call into the environment: the event is recorded, then the oracle
    answers and moves the world. *)
Definition call {C A} (ev : Event) (f : World -> (Exn + A) * World) : M C A :=
  fun s => let (r, w) := f (world s) in
           (r, mkSt (self s) w (trace s ++ [ev])).

(** A step of the environment that cannot fail and is not recorded. *)
Definition ask {C A} (f : World -> A * World) : M C A :=
  fun s => let (a, w) := f (world s) in (inr a, mkSt (self s) w (trace s)).

(** An observation of the world that leaves no trace. *)
Definition observe {C A} (f : World -> A) : M C A :=
  fun s => (inr (f (world s)), s).

(** What a computation leaves alone when it does nothing but log: the
    object's attributes, the world, and the calls made into BAC0. *)
Definition untouched {C A} (r : (Exn + A) * St C) (s : St C) : Prop :=
  self (snd r) = self s /\ world (snd r) = world s /\
  network_events (trace (snd r)) = network_events (trace s).

(** Everything in a trace but the log records. *)
Definition is_log (ev : Event) : bool :=
  match ev with EvLog _ _ _ => true | _ => false end.

Definition calls (tr : list Event) : list Event :=
  List.filter (fun ev => negb (is_log ev)) tr.

(** A computation keeps a relation [R] on the object's attributes when the
    attributes it leaves are related to those it found. *)
Definition keeps {C A} (R : C -> C -> Prop) (m : M C A) : Prop :=
  forall s, R (self s) (self (snd (m s))).

(** What one of the lenient reads of [get_device_info] stores. *)
Definition or_unknown (r : Exn + PyVal) : PyVal :=
  match r with
  | inr v => v
  | inl _ => VStr "Unknown"
  end.

(** The library constructor chosen by [bbmd_address], and its event. *)
Definition constructor (ip : string) (bbmd : option string) (ttl : Z)
    : World -> (Exn + Handle) * World :=
  match nonempty bbmd with
  | Some b => BAC0_connect ip b ttl
  | None => BAC0_lite ip
  end.

Definition constructor_event (ip : string) (bbmd : option string) (ttl : Z)
    : Event :=
  match nonempty bbmd with
  | Some b => EvConnect ip b ttl
  | None => EvLite ip
  end.

(** The outcome of a pure builtin, brought into the monad. *)
Definition lift {C A} (r : Exn + A) : M C A := fun s => (r, s).

(** [time.sleep(secs)] *)
Definition sleep {C} (secs : Z) : M C unit :=
  if secs <? 0 then raise (mkExn ValueError "sleep length must be non-negative")
  else emit (EvSleep secs).

End Values.

Arguments mkSt {_ _ _} _ _ _.
Arguments self {_ _ _} _.
Arguments world {_ _ _} _.
Arguments trace {_ _ _} _.

Notation "x <- m ;; k" := (bind m (fun x => k))
  (at level 100, m at next level, right associativity).
Notation "m ;;; k" := (bind m (fun _ => k))
  (at level 100, right associativity).

(** ** src/eventloop_bacnet_client.py *)

Module EventLoopBACnetClient.

(** The attributes of an instance.  [_stop_event] is created by [__init__]
    and never used; it is left out. *)
Record Client := mkClient {
  local_ip : string;
  device_ip : string;
  device_id : Z;
  bbmd_address : option string;
  bbmd_ttl : Z;
  bacnet : option Handle;
  device_address : string;
  loop : option Handle;
  loop_thread : option Handle;
}.

(** [__init__(local_ip, device_ip, device_id, bbmd_address=None, bbmd_ttl=900)] *)
Definition init (local_ip device_ip : string) (device_id : Z)
    (bbmd_address : option string) (bbmd_ttl : option Z) : Client :=
  {| local_ip := local_ip;
     device_ip := device_ip;
     device_id := device_id;
     bbmd_address := bbmd_address;
     bbmd_ttl := default 900 bbmd_ttl;
     bacnet := None;
     device_address := device_ip ++ ":" ++ pretty device_id;
     loop := None;
     loop_thread := None |}.

Definition with_bacnet (b : option Handle) (c : Client) : Client :=
  mkClient (local_ip c) (device_ip c) (device_id c) (bbmd_address c)
    (bbmd_ttl c) b (device_address c) (loop c) (loop_thread c).

Definition with_loop (l : option Handle) (c : Client) : Client :=
  mkClient (local_ip c) (device_ip c) (device_id c) (bbmd_address c)
    (bbmd_ttl c) (bacnet c) (device_address c) l (loop_thread c).

Definition with_loop_thread (t : option Handle) (c : Client) : Client :=
  mkClient (local_ip c) (device_ip c) (device_id c) (bbmd_address c)
    (bbmd_ttl c) (bacnet c) (device_address c) (loop c) t.

Section Methods.
Context `{PyFloats} `{!Environment}.

Definition logger : string := "src.eventloop_bacnet_client".

Definition log (lvl : Level) (msg : list Part) : M Client unit :=
  emit (EvLog logger lvl msg).

Definition update (f : Client -> Client) : M Client unit :=
  c <- get ;; put (f c).

Definition not_connected : Exn :=
  mkExn ConnectionError "Not connected to BACnet network".

(** [_run_event_loop] is the body of the loop thread: it creates the loop,
    publishes it in [self.loop] and runs it until it is stopped.  It runs
    beside the methods below, which see it through [thread_start],
    [await_loop], [thread_is_alive] and [loop_is_running]. *)
Definition _start_event_loop : M Client unit :=
  c <- get ;;
  alive <- match loop_thread c with
           | None => ret false
           | Some t => observe (thread_is_alive t)
           end ;;
  if negb alive then
    t <- ask thread_new ;;
    update (with_loop_thread (Some t)) ;;;
    call (EvThreadStart t) (thread_start t) ;;;
    c <- get ;;
    l <- ask (await_loop (loop c)) ;;
    update (with_loop l) ;;;
    match l with
    | None => raise (mkExn RuntimeError "Failed to start event loop")
    | Some _ => log INFO [Lit "Event loop thread started successfully"]
    end
  else ret tt.

Definition _stop_event_loop : M Client unit :=
  c <- get ;;
  match loop c with
  | None => ret tt
  | Some l =>
      running <- observe (loop_is_running l) ;;
      if running : bool then
        call (EvLoopStop l) (loop_stop l) ;;;
        match loop_thread c with
        | Some t => call (EvThreadJoin t) (thread_join t)
        | None => ret tt
        end
      else ret tt
  end.

Definition _async_connect : M Client Handle :=
  c <- get ;;
  match nonempty (bbmd_address c) with
  | Some bbmd =>
      log INFO [Lit "Connecting with BBMD: "; Fld (VStr bbmd)] ;;;
      call (EvConnect (local_ip c) bbmd (bbmd_ttl c))
           (BAC0_connect (local_ip c) bbmd (bbmd_ttl c))
  | None => call (EvLite (local_ip c)) (BAC0_lite (local_ip c))
  end.

Definition connect : M Client unit :=
  try_except
    (_start_event_loop ;;;
     c <- get ;;
     log INFO [Lit "Connecting to BACnet network on "; Fld (VStr (local_ip c))] ;;;
     b <- match loop c with
          | None =>
              raise (mkExn AttributeError
                       "'NoneType' object has no attribute 'call_soon_threadsafe'")
          | Some l => call (EvLoopRun l) (loop_run l) ;;; _async_connect
          end ;;
     update (with_bacnet (Some b)) ;;;
     sleep 2 ;;;
     log INFO [Lit "BACnet network connection established"] ;;;
     log INFO [Lit "Device address: "; Fld (VStr (device_address c))])
    (fun e =>
       log ERROR [Lit "Failed to connect to BACnet network: "; FldExn e] ;;;
       _stop_event_loop ;;;
       raise e).

Definition disconnect : M Client unit :=
  try_except
    (c <- get ;;
     match bacnet c with
     | Some b =>
         log INFO [Lit "Disconnecting from BACnet network"] ;;;
         call (EvDisconnect b) (bacnet_disconnect b) ;;;
         sleep 1 ;;;
         update (with_bacnet None) ;;;
         log INFO [Lit "Disconnected from BACnet"]
     | None => ret tt
     end ;;;
     _stop_event_loop)
    (fun e => log ERROR [Lit "Error during disconnect: "; FldExn e]).

(** The request string of [read_analog_value]. *)
Definition read_request (c : Client) (instance : Z) : string :=
  device_address c ++ " analogValue " ++ pretty instance ++ " presentValue".

Definition read_analog_value (instance : Z) : M Client PyVal :=
  try_except
    (c <- get ;;
     match bacnet c with
     | None => raise not_connected
     | Some b =>
         log INFO [Lit "Reading AnalogValue:"; Fld (VInt instance);
                   Lit " from "; Fld (VStr (device_address c))] ;;;
         let request := read_request c instance in
         value <- call (EvRead b request) (bacnet_read b request) ;;
         match value with
         | VNone =>
             raise (mkExn ValueError
                      ("Failed to read AnalogValue:" ++ pretty instance
                       ++ " - got None response"))
         | _ =>
             log INFO [Lit "Read AnalogValue:"; Fld (VInt instance);
                       Lit " = "; Fld value] ;;;
             lift (py_float value)
         end
     end)
    (fun e =>
       log ERROR [Lit "Failed to read AnalogValue:"; Fld (VInt instance);
                  Lit ": "; FldExn e] ;;;
       raise e).

(** The request string of [write_analog_value]. *)
Definition write_request (c : Client) (instance : Z) (value : PyVal)
    (priority : Z) : string :=
  device_address c ++ " analogValue " ++ pretty instance ++ " presentValue "
  ++ py_str value ++ " - " ++ pretty priority.

(** [write_analog_value(instance, value, priority=8)]: [None] is the omitted
    argument. *)
Definition write_analog_value (instance : Z) (value : PyVal)
    (priority : option Z) : M Client unit :=
  let priority := default 8 priority in
  try_except
    (c <- get ;;
     match bacnet c with
     | None => raise not_connected
     | Some b =>
         log INFO [Lit "Writing "; Fld value; Lit " to AnalogValue:";
                   Fld (VInt instance); Lit " at priority "; Fld (VInt priority)] ;;;
         let request := write_request c instance value priority in
         result <- call (EvWrite b request) (bacnet_write b request) ;;
         log INFO [Lit "Write result: "; Fld result] ;;;
         log INFO [Lit "Successfully wrote "; Fld value; Lit " to AnalogValue:";
                   Fld (VInt instance)]
     end)
    (fun e =>
       log ERROR [Lit "Failed to write to AnalogValue:"; Fld (VInt instance);
                  Lit ": "; FldExn e] ;;;
       raise e).

Definition read_property (object_type : string) (instance : Z)
    (property_name : string) : M Client PyVal :=
  try_except
    (c <- get ;;
     match bacnet c with
     | None => raise not_connected
     | Some b =>
         log INFO [Lit "Reading "; Fld (VStr object_type); Lit ":";
                   Fld (VInt instance); Lit "."; Fld (VStr property_name)] ;;;
         let request := device_address c ++ " " ++ object_type ++ " "
                        ++ pretty instance ++ " " ++ property_name in
         value <- call (EvRead b request) (bacnet_read b request) ;;
         log INFO [Lit "Read "; Fld (VStr object_type); Lit ":";
                   Fld (VInt instance); Lit "."; Fld (VStr property_name);
                   Lit " = "; Fld value] ;;;
         ret value
     end)
    (fun e => log ERROR [Lit "Failed to read property: "; FldExn e] ;;; raise e).

Definition whois : M Client (list PyVal) :=
  try_except
    (c <- get ;;
     match bacnet c with
     | None => raise not_connected
     | Some b =>
         log INFO [Lit "Performing Who-Is discovery..."] ;;;
         call (EvWhois b) (bacnet_whois b) ;;;
         sleep 3 ;;;
         devices <- call (EvDevices b) (bacnet_devices b) ;;
         log INFO [Lit "Discovered "; Fld (VInt (Z.of_nat (length devices)));
                   Lit " devices"] ;;;
         ret devices
     end)
    (fun e => log ERROR [Lit "Who-Is failed: "; FldExn e] ;;; raise e).

Definition unknown : PyVal := VStr "Unknown".

(** One of the guarded reads of [get_device_info]:
    [try: info[k] = self.bacnet.read(request) except: info[k] = "Unknown"]. *)
Definition read_or_unknown (b : Handle) (request : string) : M Client PyVal :=
  try_except (call (EvRead b request) (bacnet_read b request))
             (fun _ => ret unknown).

Definition unknown_info (c : Client) : gmap string PyVal :=
  <["description" := unknown]>
    (<["model" := unknown]>
       (<["vendor" := unknown]>
          (<["name" := unknown]>
             (<["device_address" := VStr (device_address c)]>
                (<["device_id" := VInt (device_id c)]> ∅))))).

Definition device_request (c : Client) : string :=
  device_address c ++ " device " ++ pretty (device_id c).

Definition get_device_info : M Client (gmap string PyVal) :=
  try_except
    (c <- get ;;
     match bacnet c with
     | None => raise not_connected
     | Some b =>
         log INFO [Lit "Reading device information for ";
                   Fld (VStr (device_address c))] ;;;
         let device_request := device_request c in
         let info : gmap string PyVal :=
           <["device_address" := VStr (device_address c)]>
             (<["device_id" := VInt (device_id c)]> ∅) in
         name <- read_or_unknown b (device_request ++ " objectName") ;;
         let info := <["name" := name]> info in
         vendor <- read_or_unknown b (device_request ++ " vendorName") ;;
         let info := <["vendor" := vendor]> info in
         model <- read_or_unknown b (device_request ++ " modelName") ;;
         let info := <["model" := model]> info in
         description <- read_or_unknown b (device_request ++ " description") ;;
         let info := <["description" := description]> info in
         log INFO [Lit "Device info: "; FldDict info] ;;;
         ret info
     end)
    (fun e =>
       c <- get ;;
       log ERROR [Lit "Failed to get device info: "; FldExn e] ;;;
       ret (unknown_info c)).

(** The public methods, as a caller invokes them one after the other. *)
Inductive Method :=
| Connect
| Disconnect
| ReadAnalogValue (instance : Z)
| WriteAnalogValue (instance : Z) (value : PyVal) (priority : option Z)
| ReadProperty (object_type : string) (instance : Z) (property_name : string)
| Whois
| GetDeviceInfo.

Definition invoke (m : Method) (s : St Client) : St Client :=
  match m with
  | Connect => snd (connect s)
  | Disconnect => snd (disconnect s)
  | ReadAnalogValue i => snd (read_analog_value i s)
  | WriteAnalogValue i v p => snd (write_analog_value i v p s)
  | ReadProperty t i n => snd (read_property t i n s)
  | Whois => snd (whois s)
  | GetDeviceInfo => snd (get_device_info s)
  end.

(** The states of a client built as [c0]: any sequence of method calls, with
    the world free to move between two calls. *)
Inductive reachable (c0 : Client) : St Client -> Prop :=
| reach_init w tr : reachable c0 (mkSt c0 w tr)
| reach_invoke s m : reachable c0 s -> reachable c0 (invoke m s)
| reach_world s w : reachable c0 s -> reachable c0 (mkSt (self s) w (trace s)).

(** Two attribute records that agree on the target device. *)
Definition same_target (c c' : Client) : Prop :=
  device_ip c' = device_ip c /\ device_id c' = device_id c
  /\ device_address c' = device_address c.

End Methods.
End EventLoopBACnetClient.

(** ** src/bacnet_client.py *)

Module BACnetClient.

Record Client := mkClient {
  local_ip : string;
  device_ip : string;
  device_id : Z;
  bbmd_address : option string;
  bbmd_ttl : Z;
  bacnet : option Handle;
  device : option Handle;
}.

(** [__init__(local_ip, device_ip, device_id, bbmd_address=None, bbmd_ttl=900)] *)
Definition init (local_ip device_ip : string) (device_id : Z)
    (bbmd_address : option string) (bbmd_ttl : option Z) : Client :=
  {| local_ip := local_ip;
     device_ip := device_ip;
     device_id := device_id;
     bbmd_address := bbmd_address;
     bbmd_ttl := default 900 bbmd_ttl;
     bacnet := None;
     device := None |}.

Definition with_bacnet (b : option Handle) (c : Client) : Client :=
  mkClient (local_ip c) (device_ip c) (device_id c) (bbmd_address c)
    (bbmd_ttl c) b (device c).

Definition with_device (d : option Handle) (c : Client) : Client :=
  mkClient (local_ip c) (device_ip c) (device_id c) (bbmd_address c)
    (bbmd_ttl c) (bacnet c) d.

Section Methods.
Context `{PyFloats} `{!Environment}.

Definition logger : string := "src.bacnet_client".

Definition log (lvl : Level) (msg : list Part) : M Client unit :=
  emit (EvLog logger lvl msg).

Definition update (f : Client -> Client) : M Client unit :=
  c <- get ;; put (f c).

Definition connect : M Client unit :=
  try_except
    (c <- get ;;
     log INFO [Lit "Connecting to BACnet network on "; Fld (VStr (local_ip c))] ;;;
     b <- match nonempty (bbmd_address c) with
          | Some bbmd =>
              log INFO [Lit "Registering as foreign device with BBMD: ";
                        Fld (VStr bbmd)] ;;;
              call (EvConnect (local_ip c) bbmd (bbmd_ttl c))
                   (BAC0_connect (local_ip c) bbmd (bbmd_ttl c))
          | None => call (EvLite (local_ip c)) (BAC0_lite (local_ip c))
          end ;;
     update (with_bacnet (Some b)) ;;;
     log INFO [Lit "BACnet network connection established"] ;;;
     log INFO [Lit "Discovering device at "; Fld (VStr (device_ip c));
               Lit " with ID "; Fld (VInt (device_id c))] ;;;
     let device_address := device_ip c ++ ":" ++ pretty (device_id c) in
     d <- call (EvDevice device_address (device_id c) b)
               (BAC0_device device_address (device_id c) b) ;;
     update (with_device d) ;;;
     match d with
     | Some dev =>
         name <- call (EvDevName dev) (device_name dev) ;;
         log INFO [Lit "Successfully connected to device: "; Fld name]
     | None =>
         raise (mkExn ConnectionError
                  ("Failed to connect to device " ++ device_address))
     end)
    (fun e =>
       log ERROR [Lit "Failed to connect to BACnet network: "; FldExn e] ;;;
       raise e).

Definition disconnect : M Client unit :=
  try_except
    (c <- get ;;
     match bacnet c with
     | Some b =>
         log INFO [Lit "Disconnecting from BACnet network"] ;;;
         call (EvDisconnect b) (bacnet_disconnect b) ;;;
         update (with_bacnet None) ;;;
         update (with_device None) ;;;
         log INFO [Lit "Disconnected successfully"]
     | None => ret tt
     end)
    (fun e => log ERROR [Lit "Error during disconnect: "; FldExn e] ;;; raise e).

Definition read_analog_value (instance : Z) : M Client PyVal :=
  try_except
    (log INFO [Lit "Reading AnalogValue:"; Fld (VInt instance)] ;;;
     let point_name := "analogValue:" ++ pretty instance in
     c <- get ;;
     value <- match device c with
              | Some d => call (EvGetItem d point_name) (device_getitem d point_name)
              | None =>
                  raise (mkExn TypeError "'NoneType' object is not subscriptable")
              end ;;
     log INFO [Lit "Read AnalogValue:"; Fld (VInt instance); Lit " = "; Fld value] ;;;
     lift (py_float value))
    (fun e =>
       log ERROR [Lit "Failed to read AnalogValue:"; Fld (VInt instance);
                  Lit ": "; FldExn e] ;;;
       raise e).

(** [write_analog_value(instance, value, priority=8)]: [None] is the omitted
    argument. *)
Definition write_analog_value (instance : Z) (value : PyVal)
    (priority : option Z) : M Client unit :=
  let priority := default 8 priority in
  try_except
    (log INFO [Lit "Writing "; Fld value; Lit " to AnalogValue:";
               Fld (VInt instance); Lit " at priority "; Fld (VInt priority)] ;;;
     let point_name := "analogValue:" ++ pretty instance in
     c <- get ;;
     match device c with
     | Some d => call (EvSetItem d point_name value) (device_setitem d point_name value)
     | None =>
         raise (mkExn TypeError
                  "'NoneType' object does not support item assignment")
     end ;;;
     log INFO [Lit "Successfully wrote "; Fld value; Lit " to AnalogValue:";
               Fld (VInt instance)])
    (fun e =>
       log ERROR [Lit "Failed to write to AnalogValue:"; Fld (VInt instance);
                  Lit ": "; FldExn e] ;;;
       raise e).

End Methods.
End BACnetClient.

(** ** The builtin [int(str)] and [range] *)

Definition is_space (a : ascii) : bool :=
  let n := Z.of_nat (nat_of_ascii a) in
  ((9 <=? n) && (n <=? 13)) || ((28 <=? n) && (n <=? 32)).

Definition digit_of (a : ascii) : option Z :=
  let n := Z.of_nat (nat_of_ascii a) in
  if (48 <=? n) && (n <=? 57) then Some (n - 48) else None.

Fixpoint lstrip (l : list ascii) : list ascii :=
  match l with
  | a :: r => if is_space a then lstrip r else l
  | [] => []
  end.

Definition strip (l : list ascii) : list ascii :=
  rev (lstrip (rev (lstrip l))).

(** Decimal digits, single underscores allowed between two digits.
    [prev] tells whether the previous character was a digit. *)
Fixpoint digits (l : list ascii) (acc : Z) (prev : bool) : option Z :=
  match l with
  | [] => if prev then Some acc else None
  | a :: r =>
      if Ascii.eqb a "_"%char then (if prev then digits r acc false else None)
      else match digit_of a with
           | Some d => digits r (10 * acc + d) true
           | None => None
           end
  end.

(** [int(s)] on ASCII input: surrounding whitespace, an optional sign, and
    decimal digits. *)
Definition py_int (s : string) : Exn + Z :=
  let parsed :=
    match strip (list_ascii_of_string s) with
    | a :: r =>
        if Ascii.eqb a "-"%char then Z.opp <$> digits r 0 false
        else if Ascii.eqb a "+"%char then digits r 0 false
        else digits (a :: r) 0 false
    | [] => None
    end in
  match parsed with
  | Some z => inr z
  | None => inl (mkExn ValueError ("invalid literal for int() with base 10: '" ++ s ++ "'"))
  end.

(** [range(lo, hi)] *)
Definition py_range (lo hi : Z) : list Z :=
  map (fun i => lo + Z.of_nat i) (seq 0 (Z.to_nat (hi - lo))).

(** ** tests/bacnet/conftest.py *)

Module Conftest.
Section Fixtures.
Context `{PyFloats}.

(** The dictionary built by [bacnet_config]; its keys are fixed, so it is a
    record with one field per key. *)
Record Config := mkConfig {
  device_ip : option string;
  device_id : Z;
  device_port : Z;
  local_ip : option string;
  bbmd_address : string;
  bbmd_ttl : Z;
  analog_value_instance : Z;
  test_write_value : pyfloat;
  expected_units : string;
  test_timeout : Z;
  retry_count : Z;
  retry_delay : Z;
}.

(** [os.getenv(key, default)] over the process environment. *)
Definition getenv (env : gmap string string) (key dflt : string) : string :=
  default dflt (env !! key).

Definition bindE {A B} (m : Exn + A) (k : A -> Exn + B) : Exn + B :=
  match m with
  | inr a => k a
  | inl e => inl e
  end.

Definition py_float_of_str (s : string) : Exn + pyfloat :=
  match float_of_str s with
  | Some f => inr f
  | None => inl (mkExn ValueError ("could not convert string to float: '" ++ s ++ "'"))
  end.

Definition missing_fields (c : Config) : list string :=
  (if is_Some_dec (nonempty (device_ip c)) then [] else ["device_ip"])
  ++ (if device_id c =? 0 then ["device_id"] else [])
  ++ (if is_Some_dec (nonempty (local_ip c)) then [] else ["local_ip"]).

Definition bacnet_config (env : gmap string string) : Exn + Config :=
  bindE (py_int (getenv env "BACNET_DEVICE_ID" "0")) (fun device_id =>
  bindE (py_int (getenv env "BACNET_DEVICE_PORT" "47808")) (fun device_port =>
  bindE (py_int (getenv env "BACNET_BBMD_TTL" "900")) (fun bbmd_ttl =>
  bindE (py_int (getenv env "ANALOG_VALUE_INSTANCE" "1")) (fun instance =>
  bindE (py_float_of_str (getenv env "ANALOG_VALUE_TEST_WRITE_VALUE" "75.5"))
    (fun write_value =>
  bindE (py_int (getenv env "TEST_TIMEOUT" "30")) (fun timeout =>
  bindE (py_int (getenv env "TEST_RETRY_COUNT" "3")) (fun retry_count =>
  bindE (py_int (getenv env "TEST_RETRY_DELAY" "2")) (fun retry_delay =>
  let config :=
    {| device_ip := env !! "BACNET_DEVICE_IP";
       device_id := device_id;
       device_port := device_port;
       local_ip := env !! "BACNET_LOCAL_IP";
       bbmd_address := getenv env "BACNET_BBMD_ADDRESS" "";
       bbmd_ttl := bbmd_ttl;
       analog_value_instance := instance;
       test_write_value := write_value;
       expected_units := getenv env "ANALOG_VALUE_EXPECTED_UNITS" "";
       test_timeout := timeout;
       retry_count := retry_count;
       retry_delay := retry_delay |} in
  match missing_fields config with
  | [] => inr config
  | missing =>
      inl (mkExn ValueError
             ("Missing required configuration: " ++ String.concat ", " missing
              ++ ". Please check your .env file."))
  end)))))))).

End Fixtures.
End Conftest.

(** ** tests/bacnet/test_bacnet_e2e.py *)

Module TestBACnetAnalogValueE2E.
Section Tests.
Context `{PyFloats} `{!Environment}.

Import EventLoopBACnetClient.

Definition test_logger : string := "test_bacnet_e2e".

Definition tlog (lvl : Level) (msg : list Part) : M Client unit :=
  emit (EvLog test_logger lvl msg).

(** How the test ends when it does not end in an error: it returns, or
    [pytest.fail] stops it. *)
Inductive Verdict := Passed | Failed (msg : string).

Definition attempt_log (attempt max_retries : Z) : Event :=
  EvLog test_logger INFO
    [Lit "Read attempt "; Fld (VInt attempt); Lit "/"; Fld (VInt max_retries)].

(** One turn of the [for attempt in range(1, max_retries + 1)] loop of
    [test_read_analog_value_with_retry]: it ends the test ([Some]), by
    [return] or by [pytest.fail], or goes on to the next attempt ([None]). *)
Definition retry_turn (attempt instance max_retries retry_delay : Z)
    : M Client (option Verdict) :=
  try_except
    (emit (attempt_log attempt max_retries) ;;;
     value <- read_analog_value instance ;;
     tlog INFO [Lit "✓ Successfully read on attempt ";
                Fld (VInt attempt); Lit ": "; Fld value] ;;;
     match value with
     | VNone => raise (mkExn AssertionError "")
     | _ => ret (Some Passed)
     end)
    (fun e =>
       tlog WARNING [Lit "Attempt "; Fld (VInt attempt);
                     Lit " failed: "; FldExn e] ;;;
       if attempt =? max_retries then
         ret (Some (Failed ("Failed to read after "
                            ++ pretty max_retries ++ " attempts")))
       else sleep retry_delay ;;; ret None).

(** The loop, over the attempts still to make; falling off its end, the
    test returns. *)
Fixpoint retry_loop (attempts : list Z) (instance max_retries retry_delay : Z)
    : M Client Verdict :=
  match attempts with
  | [] => ret Passed
  | attempt :: rest =>
      r <- retry_turn attempt instance max_retries retry_delay ;;
      match r with
      | Some v => ret v
      | None => retry_loop rest instance max_retries retry_delay
      end
  end.

Definition test_read_analog_value_with_retry (config : Conftest.Config)
    : M Client Verdict :=
  let instance := Conftest.analog_value_instance config in
  let max_retries := Conftest.retry_count config in
  let retry_delay := Conftest.retry_delay config in
  retry_loop (py_range 1 (max_retries + 1)) instance max_retries retry_delay.

(** The steps of the retry discipline in a trace: the start of an attempt
    (the test's "Read attempt" record) and the sleeps. *)
Definition is_test_step (ev : Event) : bool :=
  match ev with
  | EvSleep _ => true
  | EvLog lg INFO (Lit t :: _) =>
      String.eqb lg test_logger && String.eqb t "Read attempt "
  | _ => false
  end.

Definition test_steps (tr : list Event) : list Event :=
  List.filter is_test_step tr.

(** [k] attempts numbered from [first], with a sleep of [retry_delay]
    between two consecutive ones. *)
Fixpoint attempts_from (first : Z) (k : nat) (max_retries retry_delay : Z)
    : list Event :=
  match k with
  | O => []
  | S k' =>
      attempt_log first max_retries ::
      match k' with
      | O => []
      | S _ => EvSleep retry_delay
               :: attempts_from (first + 1) k' max_retries retry_delay
      end
  end.

End Tests.
End TestBACnetAnalogValueE2E.

(** ** A simulated device

    A concrete environment to run the embedding on: every constructor call
    answers a fresh handle, one point holds the last value written through
    [device[point] = value], and the loop thread runs from [start] until
    [loop.stop]. *)

Module Sim.

(** Floats with one decimal, counted in tenths; the two values the
    simulation shows are 75.5 and 21.5. *)
#[export] Instance floats : PyFloats := {|
  pyfloat := Z;
  float_of_int z := Some (10 * z);
  float_of_str s := if String.eqb s "75.5" then Some 755 else None;
  str_of_float f := if f =? 755 then "75.5" else if f =? 215 then "21.5" else "0.0";
|}.

Record SimWorld := mkWorld {
  fresh : N;
  running : bool;
  present_value : PyVal;
}.

Definition alloc (w : SimWorld) : Handle * SimWorld :=
  (fresh w, mkWorld (fresh w + 1)%N (running w) (present_value w)).

Definition ok {A} (a : A) (w : SimWorld) : (Exn + A) * SimWorld := (inr a, w).

Fixpoint ends_with (suffix s : string) : bool :=
  String.eqb suffix s
  || match s with
     | EmptyString => false
     | String _ s' => ends_with suffix s'
     end.

(** The device knows its name, vendor and model and has no description. *)
Definition sim_read (request : string) (w : SimWorld)
    : (Exn + PyVal) * SimWorld :=
  if ends_with " objectName" request then (inr (VStr "AHU-1"), w)
  else if ends_with " vendorName" request then (inr (VStr "Acme"), w)
  else if ends_with " modelName" request then (inr (VStr "Sim-1"), w)
  else if ends_with " description" request then
    (inl (mkExn (OtherError "UnknownPropertyError") "unknownProperty"), w)
  else (inr (present_value w), w).

#[export] Instance env : Environment := {|
  World := SimWorld;
  BAC0_lite _ w := let (h, w') := alloc w in (inr h, w');
  BAC0_connect _ _ _ w := let (h, w') := alloc w in (inr h, w');
  BAC0_device _ _ _ w := let (h, w') := alloc w in (inr (Some h), w');
  device_name _ := ok (VStr "Simulated device");
  device_getitem _ _ w := (inr (present_value w), w);
  device_setitem _ _ v w := (inr tt, mkWorld (fresh w) (running w) v);
  bacnet_read _ := sim_read;
  bacnet_write _ _ := ok VNone;
  bacnet_whois _ := ok tt;
  bacnet_devices _ := ok [];
  bacnet_disconnect _ := ok tt;
  thread_new := alloc;
  thread_start _ w := (inr tt, mkWorld (fresh w) true (present_value w));
  await_loop _ w := let (h, w') := alloc w in (Some h, w');
  thread_is_alive _ := running;
  thread_join _ := ok tt;
  loop_is_running _ := running;
  loop_stop _ w := (inr tt, mkWorld (fresh w) false (present_value w));
  loop_run _ := ok tt;
|}.

Definition world0 : SimWorld := mkWorld 1 false (VFloat 215).

(** A client of each class for the device 1234 at 10.0.0.5, just built and
    after one [connect()]. *)
Definition el_fresh : St EventLoopBACnetClient.Client :=
  mkSt (EventLoopBACnetClient.init "10.0.0.2" "10.0.0.5" 1234 None None)
       world0 [].

Definition el_connected : St EventLoopBACnetClient.Client :=
  EventLoopBACnetClient.invoke EventLoopBACnetClient.Connect el_fresh.

Definition bc_fresh : St BACnetClient.Client :=
  mkSt (BACnetClient.init "10.0.0.2" "10.0.0.5" 1234 None None) world0 [].

Definition bc_connected : St BACnetClient.Client :=
  snd (BACnetClient.connect bc_fresh).

(** The value the tests write, 75.5. *)
Definition test_value : PyVal := @VFloat floats 755.

(** The environment variables of a minimal [.env] file. *)
Definition dotenv : gmap string string :=
  <["BACNET_LOCAL_IP" := "10.0.0.2"]>
    (<["BACNET_DEVICE_ID" := "1234"]>
       (<["BACNET_DEVICE_IP" := "10.0.0.5"]> ∅)).

Definition dotenv_config : Conftest.Config :=
  {| Conftest.device_ip := Some "10.0.0.5";
     Conftest.device_id := 1234;
     Conftest.device_port := 47808;
     Conftest.local_ip := Some "10.0.0.2";
     Conftest.bbmd_address := "";
     Conftest.bbmd_ttl := 900;
     Conftest.analog_value_instance := 1;
     Conftest.test_write_value := 755;
     Conftest.expected_units := "";
     Conftest.test_timeout := 30;
     Conftest.retry_count := 3;
     Conftest.retry_delay := 2 |}.

End Sim.

(** * The rest of the harness

    The methods and tests that the sections above leave out, over the same
    monad and environment. *)

(** ** src/bacnet_client.py: the object model of a BAC0 device *)

(** [read_property] and [get_device_info] of [BACnetClient] go through the
    points and properties of the BAC0 device object.  These accessors move
    the world like any other call; the trace has no event for them, except
    [device.properties.name]. *)
Class DeviceObjects `{PyFloats} `{!Environment} := {
  (* device.find_point(name); None is a falsy result *)
  device_find_point : Handle -> string -> World -> (Exn + option Handle) * World;
  (* point.properties.__dict__ *)
  point_properties : Handle -> World -> (Exn + gmap string PyVal) * World;
  (* device.properties.<attribute>, for the attributes other than name *)
  device_property : Handle -> string -> World -> (Exn + PyVal) * World;
}.

Module BACnetClientQueries.
Section Methods.
Context `{PyFloats} `{!Environment} `{!DeviceObjects}.
Import BACnetClient.

(** A call into the environment that leaves no event. *)
Definition step {A} (f : World -> (Exn + A) * World) : M Client A :=
  fun s => let (r, w) := f (world s) in (r, mkSt (self s) w (trace s)).

Definition read_property (object_type : string) (instance : Z)
    (property_name : string) : M Client PyVal :=
  try_except
    (log INFO [Lit "Reading "; Fld (VStr object_type); Lit ":";
               Fld (VInt instance); Lit "."; Fld (VStr property_name)] ;;;
     let point_name := object_type ++ ":" ++ pretty instance in
     c <- get ;;
     point <- match device c with
              | Some d => step (device_find_point d point_name)
              | None =>
                  raise (mkExn AttributeError
                           "'NoneType' object has no attribute 'find_point'")
              end ;;
     match point with
     | None => raise (mkExn ValueError ("Point " ++ point_name ++ " not found"))
     | Some pt =>
         properties <- step (point_properties pt) ;;
         let value := default VNone (properties !! property_name) in
         log INFO [Lit "Read "; Fld (VStr object_type); Lit ":";
                   Fld (VInt instance); Lit "."; Fld (VStr property_name);
                   Lit " = "; Fld value] ;;;
         ret value
     end)
    (fun e => log ERROR [Lit "Failed to read property: "; FldExn e] ;;; raise e).

Definition get_device_info : M Client (gmap string PyVal) :=
  try_except
    (c <- get ;;
     match device c with
     | None => raise (mkExn ConnectionError "Not connected to device")
     | Some d =>
         name <- call (EvDevName d) (device_name d) ;;
         device_id <- step (device_property d "device_id") ;;
         vendor <- step (device_property d "vendor_name") ;;
         model <- step (device_property d "model_name") ;;
         description <- step (device_property d "description") ;;
         let info : gmap string PyVal :=
           <["description" := description]>
             (<["model" := model]>
                (<["vendor" := vendor]>
                   (<["device_id" := device_id]>
                      (<["name" := name]> ∅)))) in
         log INFO [Lit "Device info: "; FldDict info] ;;;
         ret info
     end)
    (fun e => log ERROR [Lit "Failed to get device info: "; FldExn e] ;;; raise e).

End Methods.
End BACnetClientQueries.

(** ** tests/bacnet/conftest.py: the client fixtures *)

Module ConftestFixtures.
Section Fixtures.
Context `{PyFloats} `{!Environment}.
Import EventLoopBACnetClient.

(** The object [bacnet_client] builds from the configuration.  [local_ip]
    and [device_ip] are strings in every configuration [bacnet_config]
    lets through; nothing is built from one where they are [None]. *)
Definition bacnet_client_new (config : Conftest.Config) : option Client :=
  match Conftest.local_ip config, Conftest.device_ip config with
  | Some local_ip, Some device_ip =>
      Some (init local_ip device_ip (Conftest.device_id config)
              (nonempty (Some (Conftest.bbmd_address config)))
              (Some (Conftest.bbmd_ttl config)))
  | _, _ => None
  end.

(** [bacnet_client]: before the [yield], and after it. *)
Definition bacnet_client_setup : M Client unit := connect.
Definition bacnet_client_teardown : M Client unit := disconnect.

Definition root_log (lvl : Level) (msg : list Part) : M Client unit :=
  emit (EvLog "root" lvl msg).

(** [original_analog_value]: before the [yield], which hands the value
    read to the test, and after it. *)
Definition original_analog_value_setup (config : Conftest.Config)
    : M Client PyVal :=
  let instance := Conftest.analog_value_instance config in
  original_value <- read_analog_value instance ;;
  root_log INFO [Lit "Stored original AnalogValue:"; Fld (VInt instance);
                 Lit " = "; Fld original_value] ;;;
  ret original_value.

Definition original_analog_value_teardown (config : Conftest.Config)
    (original_value : PyVal) : M Client unit :=
  let instance := Conftest.analog_value_instance config in
  try_except
    (write_analog_value instance original_value None ;;;
     root_log INFO [Lit "Restored AnalogValue:"; Fld (VInt instance);
                    Lit " to "; Fld original_value])
    (fun e => root_log ERROR [Lit "Failed to restore original value: "; FldExn e]).

End Fixtures.
End ConftestFixtures.

(** ** tests/bacnet/test_bacnet_e2e.py: the connection test *)

Module TestDeviceConnection.
Section Tests.
Context `{PyFloats} `{!Environment}.
Import EventLoopBACnetClient.

Definition tlog := @TestBACnetAnalogValueE2E.tlog _ _.

(** [d[key]] on a dictionary. *)
Definition subscript (d : gmap string PyVal) (key : string) : M Client PyVal :=
  match d !! key with
  | Some v => ret v
  | None => raise (mkExn (OtherError "KeyError") ("'" ++ key ++ "'"))
  end.

(** [v == z] for an integer [z].  [get_device_info] stores an [int] under
    "device_id"; a float or an object on the left is not modelled and
    counts as different. *)
Definition eq_int (v : PyVal) (z : Z) : bool :=
  match v with
  | VInt x => x =? z
  | VBool b => (if b then 1 else 0) =? z
  | _ => false
  end.

(** [test_device_connection]: it returns when its assertions hold and
    raises [AssertionError] otherwise. *)
Definition test_device_connection (config : Conftest.Config) : M Client unit :=
  device_info <- get_device_info ;;
  (* assert device_info is not None: a dictionary is not None *)
  id <- subscript device_info "device_id" ;;
  (if eq_int id (Conftest.device_id config) then ret tt
   else
     raise (mkExn AssertionError
              ("Device ID mismatch: expected "
               ++ pretty (Conftest.device_id config) ++ ", got " ++ py_str id))) ;;;
  name <- subscript device_info "name" ;;
  tlog INFO [Lit "✓ Connected to device: "; Fld name] ;;;
  id <- subscript device_info "device_id" ;;
  tlog INFO [Lit "  - Device ID: "; Fld id] ;;;
  vendor <- subscript device_info "vendor" ;;
  tlog INFO [Lit "  - Vendor: "; Fld vendor] ;;;
  model <- subscript device_info "model" ;;
  tlog INFO [Lit "  - Model: "; Fld model].

End Tests.
End TestDeviceConnection.

(** ** tests/bacnet/test_eventloop_bacnet_e2e.py *)

Module TestEventLoopScript.
Section Script.
Context `{PyFloats} `{!Environment}.
Import EventLoopBACnetClient.

(** The function has no [self]: its state is the world and the trace, and
    the client is a local variable. *)
Definition script_logger : string := "test_eventloop_bacnet_e2e".

Definition slog (lvl : Level) (msg : list Part) : M unit unit :=
  emit (EvLog script_logger lvl msg).

(** A method called on the local object [c]: its result, and the object as
    the method leaves it. *)
Definition on_object {A} (c : Client) (m : M Client A) : M unit (A * Client) :=
  fun s =>
    let (r, s') := m (mkSt c (world s) (trace s)) in
    (match r with
     | inr a => inr (a, self s')
     | inl e => inl e
     end,
     mkSt tt (world s') (trace s')).

(** ["=" * 60] *)
Definition rule : string :=
  "============================================================".

(** [test_eventloop_client()] over the process environment; printing the
    traceback is left out. *)
Definition test_eventloop_client (env : gmap string string) : M unit bool :=
  slog INFO [Lit rule] ;;;
  slog INFO [Lit "Testing EventLoopBACnetClient"] ;;;
  slog INFO [Lit rule] ;;;
  try_except
    (let local_ip := env !! "BACNET_LOCAL_IP" in
     let device_ip := env !! "BACNET_DEVICE_IP" in
     device_id <- lift (py_int (Conftest.getenv env "BACNET_DEVICE_ID" "0")) ;;
     instance <- lift (py_int (Conftest.getenv env "ANALOG_VALUE_INSTANCE" "1")) ;;
     match nonempty local_ip, nonempty device_ip, device_id =? 0 with
     | Some local_ip, Some device_ip, false =>
         slog INFO [Lit "Configuration:"] ;;;
         slog INFO [Lit "  Local IP: "; Fld (VStr local_ip)] ;;;
         slog INFO [Lit "  Device IP: "; Fld (VStr device_ip)] ;;;
         slog INFO [Lit "  Device ID: "; Fld (VInt device_id)] ;;;
         slog INFO [Lit "  AnalogValue Instance: "; Fld (VInt instance)] ;;;
         slog INFO [Lit ""] ;;;
         slog INFO [Lit "Step 1: Creating BACnet client..."] ;;;
         let client := init local_ip device_ip device_id None None in
         slog INFO [Lit "✓ Client created successfully"] ;;;
         slog INFO [Lit ""] ;;;
         slog INFO [Lit "Step 2: Connecting to BACnet network..."] ;;;
         r <- on_object client connect ;;
         let client := snd r in
         slog INFO [Lit "✓ Connected successfully"] ;;;
         slog INFO [Lit ""] ;;;
         slog INFO [Lit "Step 3: Reading AnalogValue:"; Fld (VInt instance);
                    Lit "..."] ;;;
         r <- on_object client (read_analog_value instance) ;;
         let value := fst r in
         let client := snd r in
         slog INFO [Lit "✓ Read successful: "; Fld value] ;;;
         slog INFO [Lit ""] ;;;
         slog INFO [Lit "Step 4: Reading device information..."] ;;;
         r <- on_object client get_device_info ;;
         let info := fst r in
         let client := snd r in
         let item key : M unit PyVal :=
           match info !! key with
           | Some v => ret v
           | None => raise (mkExn (OtherError "KeyError") ("'" ++ key ++ "'"))
           end in
         name <- item "name" ;;
         slog INFO [Lit "✓ Device Name: "; Fld name] ;;;
         id <- item "device_id" ;;
         slog INFO [Lit "  Device ID: "; Fld id] ;;;
         vendor <- item "vendor" ;;
         slog INFO [Lit "  Vendor: "; Fld vendor] ;;;
         model <- item "model" ;;
         slog INFO [Lit "  Model: "; Fld model] ;;;
         slog INFO [Lit ""] ;;;
         slog INFO [Lit "Step 5: Disconnecting..."] ;;;
         on_object client disconnect ;;;
         slog INFO [Lit "✓ Disconnected successfully"] ;;;
         slog INFO [Lit ""] ;;;
         slog INFO [Lit rule] ;;;
         slog INFO [Lit "✓ ALL TESTS PASSED!"] ;;;
         slog INFO [Lit rule] ;;;
         ret true
     | _, _, _ =>
         slog ERROR [Lit "Missing configuration in .env file"] ;;;
         slog ERROR [Lit "Required: BACNET_LOCAL_IP, BACNET_DEVICE_IP, BACNET_DEVICE_ID"] ;;;
         ret false
     end)
    (fun e =>
       slog ERROR [Lit rule] ;;;
       slog ERROR [Lit "✗ TEST FAILED: "; FldExn e] ;;;
       slog ERROR [Lit rule] ;;;
       ret false).

End Script.
End TestEventLoopScript.

(** ** The simulated device, with its objects *)

Module SimObjects.
Import Sim.

(** One point, analogValue:1, with a present value and units. *)
#[export] Instance objects : DeviceObjects := {|
  device_find_point _ name w :=
    (inr (if String.eqb name "analogValue:1" then Some 9%N else None), w);
  point_properties _ w :=
    (inr (<["units" := VStr "degreesCelsius"]>
            (<["presentValue" := present_value w]> ∅)), w);
  device_property _ attribute w :=
    (if String.eqb attribute "device_id" then inr (VInt 1234)
     else if String.eqb attribute "description" then
       inl (mkExn AttributeError "description")
     else inr (VStr "Acme"), w);
|}.

(** A process environment without [BACNET_DEVICE_ID]. *)
Definition dotenv_without_id : gmap string string :=
  <["BACNET_LOCAL_IP" := "10.0.0.2"]> (<["BACNET_DEVICE_IP" := "10.0.0.5"]> ∅).

(** The configuration of [dotenv] with [TEST_RETRY_COUNT=0]. *)
Definition config_without_retries : Conftest.Config :=
  {| Conftest.device_ip := Some "10.0.0.5";
     Conftest.device_id := 1234;
     Conftest.device_port := 47808;
     Conftest.local_ip := Some "10.0.0.2";
     Conftest.bbmd_address := "";
     Conftest.bbmd_ttl := 900;
     Conftest.analog_value_instance := 1;
     Conftest.test_write_value := 755;
     Conftest.expected_units := "";
     Conftest.test_timeout := 30;
     Conftest.retry_count := 0;
     Conftest.retry_delay := 2 |}.

(** The client [bacnet_client] builds from [dotenv_config]. *)
Definition session_client : EventLoopBACnetClient.Client :=
  EventLoopBACnetClient.init "10.0.0.2" "10.0.0.5" 1234 None (Some 900).

Definition session_connected : St EventLoopBACnetClient.Client :=
  EventLoopBACnetClient.invoke EventLoopBACnetClient.Connect
    (mkSt session_client world0 []).


End SimObjects.

(** ** A simulated device whose network cannot be closed *)

Module SimFaulty.
Import Sim.

(** As [Sim.env], but the library's [disconnect()] raises. *)
#[export] Instance env : Environment := {|
  World := SimWorld;
  BAC0_lite _ w := let (h, w') := alloc w in (inr h, w');
  BAC0_connect _ _ _ w := let (h, w') := alloc w in (inr h, w');
  BAC0_device _ _ _ w := let (h, w') := alloc w in (inr (Some h), w');
  device_name _ := ok (VStr "Simulated device");
  device_getitem _ _ w := (inr (present_value w), w);
  device_setitem _ _ v w := (inr tt, mkWorld (fresh w) (running w) v);
  bacnet_read _ := sim_read;
  bacnet_write _ _ := ok VNone;
  bacnet_whois _ := ok tt;
  bacnet_devices _ := ok [];
  bacnet_disconnect _ w := (inl (mkExn RuntimeError "socket already closed"), w);
  thread_new := alloc;
  thread_start _ w := (inr tt, mkWorld (fresh w) true (present_value w));
  await_loop _ w := let (h, w') := alloc w in (Some h, w');
  thread_is_alive _ := running;
  thread_join _ := ok tt;
  loop_is_running _ := running;
  loop_stop _ w := (inr tt, mkWorld (fresh w) false (present_value w));
  loop_run _ := ok tt;
|}.

Definition el_connected : St EventLoopBACnetClient.Client :=
  EventLoopBACnetClient.invoke EventLoopBACnetClient.Connect
    (mkSt (EventLoopBACnetClient.init "10.0.0.2" "10.0.0.5" 1234 None None)
       world0 []).

End SimFaulty.

(** ** Vocabulary for the properties below *)

Section Vocabulary.
Context `{PyFloats} `{!Environment}.

(** A computation emits only events that satisfy [P]: the trace it leaves
    is the trace it found followed by such events. *)
Definition emits {C A} (P : Event -> Prop) (m : M C A) : Prop :=
  forall s, exists evs,
    trace (snd (m s)) = (trace s ++ evs)%list /\ Forall P evs.

Definition is_disconnect (ev : Event) : bool :=
  match ev with EvDisconnect _ => true | _ => false end.

Definition quiet (ev : Event) : Prop := is_disconnect ev = false.

(** The calls of the library's [disconnect()] in a trace. *)
Definition disconnects (tr : list Event) : list Event :=
  List.filter is_disconnect tr.

(** The attributes [__init__] copies from its arguments. *)
Definition same_config (c c' : EventLoopBACnetClient.Client) : Prop :=
  EventLoopBACnetClient.local_ip c' = EventLoopBACnetClient.local_ip c
  /\ EventLoopBACnetClient.bbmd_address c' = EventLoopBACnetClient.bbmd_address c
  /\ EventLoopBACnetClient.bbmd_ttl c' = EventLoopBACnetClient.bbmd_ttl c.

End Vocabulary.

(** * Properties *)

Module EL := EventLoopBACnetClient.
Module BC := BACnetClient.
Module T := TestBACnetAnalogValueE2E.

(** ** Running the monad *)

Ltac run :=
  unfold try_except, bind, ret, raise, get, put, emit, call, ask, observe,
    lift, sleep; cbn [fst snd self world trace].

Arguments py_float : simpl never.
Arguments py_str : simpl never.

Ltac net :=
  unfold network_events, calls; rewrite ?List.filter_app; cbn;
  rewrite ?app_nil_r, <- ?app_assoc; cbn.

Section Basics.
Context `{PyFloats} `{!Environment}.

Lemma py_float_is_float v r : py_float v = inr r -> exists f, r = VFloat f.
Proof.
  destruct v as [| b | z | f | s | o [f|] r']; unfold py_float; intros E;
    repeat match type of E with
           | context [match ?x with _ => _ end] => destruct x
           end;
    inversion E; eauto.
Qed.

Lemma append_assoc (a b c : string) : (a ++ b) ++ c = a ++ (b ++ c).
Proof.
  induction a as [| ch a IH]; [ done | ].
  change (String ch ((a ++ b) ++ c) = String ch (a ++ (b ++ c))).
  by rewrite IH.
Qed.

(** *** Rules for [keeps] *)

Context {C : Type} (R : C -> C -> Prop) `{!Reflexive R} `{!Transitive R}.

Lemma keeps_ret {A} (a : A) : keeps R (ret a).
Proof. intros s. cbn. reflexivity. Qed.

Lemma keeps_raise {A} e : keeps R (@raise _ _ C A e).
Proof. intros s. cbn. reflexivity. Qed.

Lemma keeps_lift {A} (r : Exn + A) : keeps R (lift r).
Proof. intros s. cbn. reflexivity. Qed.

Lemma keeps_get : keeps R (@get _ _ C).
Proof. intros s. cbn. reflexivity. Qed.

Lemma keeps_emit ev : keeps R (@emit _ _ C ev).
Proof. intros s. cbn. reflexivity. Qed.

Lemma keeps_observe {A} (f : World -> A) : keeps R (observe f).
Proof. intros s. cbn. reflexivity. Qed.

Lemma keeps_ask {A} (f : World -> A * World) : keeps R (ask f).
Proof. intros s. unfold ask. destruct (f (world s)). cbn. reflexivity. Qed.

Lemma keeps_call {A} ev (f : World -> (Exn + A) * World) : keeps R (call ev f).
Proof. intros s. unfold call. destruct (f (world s)). cbn. reflexivity. Qed.

Lemma keeps_sleep z : keeps R (@sleep _ _ C z).
Proof. unfold sleep. destruct (z <? 0); [ apply keeps_raise | apply keeps_emit ]. Qed.

Lemma keeps_put_of_get (f : C -> C) :
  (forall c, R c (f c)) -> keeps R (c <- get ;; put (f c)).
Proof. intros Hf s. cbn. apply Hf. Qed.

Lemma keeps_bind {A B} (m : M C A) (k : A -> M C B) :
  keeps R m -> (forall a, keeps R (k a)) -> keeps R (bind m k).
Proof.
  intros Hm Hk s. unfold bind. specialize (Hm s).
  destruct (m s) as [[e | a] s']; cbn in *; [ done | ].
  etransitivity; [ exact Hm | apply Hk ].
Qed.

Lemma keeps_try {A} (m : M C A) (h : Exn -> M C A) :
  keeps R m -> (forall e, keeps R (h e)) -> keeps R (try_except m h).
Proof.
  intros Hm Hh s. unfold try_except. specialize (Hm s).
  destruct (m s) as [[e | a] s']; cbn in *; [ | done ].
  etransitivity; [ exact Hm | apply Hh ].
Qed.

End Basics.

Ltac kapply l := apply l; try typeclasses eauto.

Ltac keeps_step :=
  match goal with
  | |- keeps _ (bind get (fun c => put _)) => kapply keeps_put_of_get
  | |- keeps _ (bind _ _) => kapply keeps_bind; [ | intros ? ]
  | |- keeps _ (try_except _ _) => kapply keeps_try; [ | intros ? ]
  | |- keeps _ (ret _) => kapply keeps_ret
  | |- keeps _ (raise _) => kapply keeps_raise
  | |- keeps _ (lift _) => kapply keeps_lift
  | |- keeps _ get => kapply keeps_get
  | |- keeps _ (emit _) => kapply keeps_emit
  | |- keeps _ (observe _) => kapply keeps_observe
  | |- keeps _ (ask _) => kapply keeps_ask
  | |- keeps _ (call _ _) => kapply keeps_call
  | |- keeps _ (sleep _) => kapply keeps_sleep
  | |- keeps _ (match ?x with _ => _ end) => destruct x
  | |- keeps _ (if ?x then _ else _) => destruct x
  end.

(** ** EventLoopBACnetClient keeps what [__init__] configured *)

Section Configuration.
Context `{PyFloats} `{!Environment}.

#[local] Instance same_target_refl : Reflexive EL.same_target.
Proof. by intros c. Qed.

#[local] Instance same_target_trans : Transitive EL.same_target.
Proof. intros a b c (? & ? & ?) (? & ? & ?). unfold EL.same_target. by repeat split; etransitivity. Qed.

Ltac keeps_target :=
  unfold EL.log, EL.update;
  repeat first [ keeps_step | by intros [] ].

Lemma start_event_loop_keeps : keeps EL.same_target EL._start_event_loop.
Proof. unfold EL._start_event_loop. keeps_target. Qed.

Lemma stop_event_loop_keeps : keeps EL.same_target EL._stop_event_loop.
Proof. unfold EL._stop_event_loop. keeps_target. Qed.

Lemma connect_keeps : keeps EL.same_target EL.connect.
Proof.
  unfold EL.connect, EL._async_connect.
  repeat first [ apply start_event_loop_keeps | apply stop_event_loop_keeps
               | keeps_step | progress unfold EL.log, EL.update | by intros [] ].
Qed.

Lemma disconnect_keeps : keeps EL.same_target EL.disconnect.
Proof.
  unfold EL.disconnect.
  repeat first [ apply stop_event_loop_keeps
               | keeps_step | progress unfold EL.log, EL.update | by intros [] ].
Qed.

Lemma invoke_keeps m s : EL.same_target (self s) (self (EL.invoke m s)).
Proof.
  destruct m; cbn [EL.invoke];
    [ apply connect_keeps | apply disconnect_keeps | .. ];
    match goal with |- EL.same_target _ (self (snd (?f s))) =>
      revert s; change (keeps EL.same_target f) end;
    unfold EL.read_analog_value, EL.write_analog_value, EL.read_property,
      EL.whois, EL.get_device_info, EL.read_or_unknown;
    keeps_target.
Qed.

Lemma reachable_same_target c0 s :
  EL.reachable c0 s -> EL.same_target c0 (self s).
Proof.
  induction 1 as [w tr | s m _ IH | s w _ IH]; cbn.
  - reflexivity.
  - etransitivity; [ exact IH | apply invoke_keeps ].
  - exact IH.
Qed.

End Configuration.

(** ** EventLoopBACnetClient: the guarded operations *)

Section EventLoopProperties.
Context `{PyFloats} `{!Environment}.

(** C1.  While [self.bacnet] is [None], each of [read_analog_value],
    [write_analog_value], [read_property] and [whois] raises
    [ConnectionError("Not connected to BACnet network")] at once: the
    attributes of the client and the world are what they were, and no call
    into BAC0 has been made. *)
Theorem not_connected_fails_immediately (s : St EL.Client) :
  EL.bacnet (self s) = None ->
  forall instance value priority object_type property_name,
    (fst (EL.read_analog_value instance s) = inl EL.not_connected
     /\ untouched (EL.read_analog_value instance s) s)
    /\ (fst (EL.write_analog_value instance value priority s) = inl EL.not_connected
        /\ untouched (EL.write_analog_value instance value priority s) s)
    /\ (fst (EL.read_property object_type instance property_name s)
          = inl EL.not_connected
        /\ untouched (EL.read_property object_type instance property_name s) s)
    /\ (fst (EL.whois s) = inl EL.not_connected /\ untouched (EL.whois s) s).
Proof.
  intros Hb instance value priority object_type property_name.
  unfold EL.read_analog_value, EL.write_analog_value, EL.read_property,
    EL.whois, untouched, EL.log.
  run. rewrite Hb. cbn. net. repeat split.
Qed.

(** What [read_analog_value] does on a connected client, read off the
    answer of [self.bacnet.read]. *)
Lemma read_analog_value_connected (s : St EL.Client) b instance :
  EL.bacnet (self s) = Some b ->
  let request := EL.read_request (self s) instance in
  let answer := bacnet_read b request (world s) in
  fst (EL.read_analog_value instance s)
  = match fst answer with
    | inl e => inl e
    | inr VNone =>
        inl (mkExn ValueError
               ("Failed to read AnalogValue:" ++ pretty instance
                ++ " - got None response"))
    | inr v => py_float v
    end
  /\ self (snd (EL.read_analog_value instance s)) = self s
  /\ world (snd (EL.read_analog_value instance s)) = snd answer
  /\ network_events (trace (snd (EL.read_analog_value instance s)))
     = (network_events (trace s) ++ [EvRead b request])%list.
Proof.
  intros Hb. cbn zeta.
  unfold EL.read_analog_value, EL.log. run. rewrite Hb. cbn.
  destruct (bacnet_read b (EL.read_request (self s) instance) (world s))
    as [[e | v] w]; cbn.
  - net. done.
  - destruct v; cbn; try (net; done);
      match goal with |- context [py_float ?v] => destruct (py_float v) end;
      cbn; net; done.
Qed.

(** C7.  On a client built by [__init__(local_ip, device_ip, device_id, ...)]
    and connected, whatever was called on it since, [read_analog_value(n)]
    makes one call into BAC0: [read] of the string
    "{device_ip}:{device_id} analogValue {n} presentValue". *)
Theorem read_analog_value_request lip dip did bbmd ttl (s : St EL.Client) b n :
  EL.reachable (EL.init lip dip did bbmd ttl) s ->
  EL.bacnet (self s) = Some b ->
  EL.device_address (EL.init lip dip did bbmd ttl) = dip ++ ":" ++ pretty did
  /\ network_events (trace (snd (EL.read_analog_value n s)))
     = (network_events (trace s)
        ++ [EvRead b (dip ++ ":" ++ pretty did ++ " analogValue " ++ pretty n
                      ++ " presentValue")])%list.
Proof.
  intros Hr Hb. split; [ reflexivity | ].
  destruct (read_analog_value_connected s b n Hb) as (_ & _ & _ & ->).
  destruct (reachable_same_target _ _ Hr) as (_ & _ & Ha).
  unfold EL.read_request. rewrite Ha. cbn [EL.device_address EL.init].
  by rewrite !append_assoc.
Qed.

(** C5.  On a connected client [get_device_info] makes its four reads
    (objectName, vendorName, modelName, description) one after the other
    whatever each of them answers, returns normally, and reports a read
    that raised as "Unknown". *)
Theorem device_info_reads_are_lenient (s : St EL.Client) b :
  EL.bacnet (self s) = Some b ->
  let req p := EL.device_request (self s) ++ p in
  let a1 := bacnet_read b (req " objectName") (world s) in
  let a2 := bacnet_read b (req " vendorName") (snd a1) in
  let a3 := bacnet_read b (req " modelName") (snd a2) in
  let a4 := bacnet_read b (req " description") (snd a3) in
  exists info : gmap string PyVal,
    fst (EL.get_device_info s) = inr info
    /\ info !! "name" = Some (or_unknown (fst a1))
    /\ info !! "vendor" = Some (or_unknown (fst a2))
    /\ info !! "model" = Some (or_unknown (fst a3))
    /\ info !! "description" = Some (or_unknown (fst a4))
    /\ network_events (trace (snd (EL.get_device_info s)))
       = (network_events (trace s)
          ++ [EvRead b (req " objectName"); EvRead b (req " vendorName");
              EvRead b (req " modelName"); EvRead b (req " description")])%list.
Proof.
  intros Hb. cbn zeta.
  unfold EL.get_device_info, EL.read_or_unknown, EL.log. run. rewrite Hb. cbn.
  destruct (bacnet_read b _ (world s)) as [[e1 | v1] w1]; cbn;
    destruct (bacnet_read b _ w1) as [[e2 | v2] w2]; cbn;
    destruct (bacnet_read b _ w2) as [[e3 | v3] w3]; cbn;
    destruct (bacnet_read b _ w3) as [[e4 | v4] w4]; cbn;
    (eexists; split; [ reflexivity | ]);
    (split_and!; [ by simplify_map_eq .. | net; done ]).
Qed.

(** C9.  [get_device_info] always returns a dictionary, in every state of a
    client built by [__init__]: it holds the constructor's [device_id] and
    the [device_address], and the keys name, vendor, model and description;
    when the client is not connected these four are all "Unknown". *)
Theorem get_device_info_total lip dip did bbmd ttl (s : St EL.Client) :
  EL.reachable (EL.init lip dip did bbmd ttl) s ->
  exists info : gmap string PyVal,
    fst (EL.get_device_info s) = inr info
    /\ info !! "device_id" = Some (VInt did)
    /\ info !! "device_address" = Some (VStr (dip ++ ":" ++ pretty did))
    /\ is_Some (info !! "name") /\ is_Some (info !! "vendor")
    /\ is_Some (info !! "model") /\ is_Some (info !! "description")
    /\ (EL.bacnet (self s) = None ->
        info !! "name" = Some (VStr "Unknown")
        /\ info !! "vendor" = Some (VStr "Unknown")
        /\ info !! "model" = Some (VStr "Unknown")
        /\ info !! "description" = Some (VStr "Unknown")).
Proof.
  intros Hr. destruct (reachable_same_target _ _ Hr) as (_ & Hid & Ha).
  cbn [EL.init EL.device_id EL.device_address] in Hid, Ha.
  destruct (EL.bacnet (self s)) as [b |] eqn:Hb.
  - unfold EL.get_device_info, EL.read_or_unknown, EL.log. run.
    rewrite Hb. cbn.
    destruct (bacnet_read b _ (world s)) as [[e1 | v1] w1]; cbn;
      destruct (bacnet_read b _ w1) as [[e2 | v2] w2]; cbn;
      destruct (bacnet_read b _ w2) as [[e3 | v3] w3]; cbn;
      destruct (bacnet_read b _ w3) as [[e4 | v4] w4]; cbn;
      (eexists; split; [ reflexivity | ]); rewrite Hid, Ha;
      (split_and!; [ by simplify_map_eq .. | done ]).
  - exists (EL.unknown_info (self s)).
    unfold EL.get_device_info, EL.log. run. rewrite Hb. cbn.
    unfold EL.unknown_info, EL.unknown. rewrite Hid, Ha.
    split_and!; by simplify_map_eq.
Qed.

End EventLoopProperties.

(** ** Both clients *)

Section Clients.
Context `{PyFloats} `{!Environment}.

(** C10.  A [read_analog_value] that returns, returns a float, in both
    classes; on a connected [EventLoopBACnetClient] a [None] answer of the
    library raises [ValueError], and a float answer is returned as it is. *)
Theorem read_analog_value_returns_float :
  (forall (s s' : St EL.Client) n v,
      EL.read_analog_value n s = (inr v, s') -> exists f, v = VFloat f)
  /\ (forall (s s' : St BC.Client) n v,
         BC.read_analog_value n s = (inr v, s') -> exists f, v = VFloat f)
  /\ (forall (s : St EL.Client) b n,
         EL.bacnet (self s) = Some b ->
         fst (bacnet_read b (EL.read_request (self s) n) (world s)) = inr VNone ->
         fst (EL.read_analog_value n s)
         = inl (mkExn ValueError
                  ("Failed to read AnalogValue:" ++ pretty n
                   ++ " - got None response")))
  /\ (forall (s : St EL.Client) b n f,
         EL.bacnet (self s) = Some b ->
         fst (bacnet_read b (EL.read_request (self s) n) (world s))
         = inr (VFloat f) ->
         fst (EL.read_analog_value n s) = inr (VFloat f)).
Proof.
  split_and!.
  - intros s s' n v E.
    destruct (EL.bacnet (self s)) as [b |] eqn:Hb.
    + destruct (read_analog_value_connected s b n Hb) as (Hr & _).
      rewrite E in Hr. cbn in Hr.
      destruct (fst (bacnet_read b _ (world s))) as [e | a]; [ done | ].
      destruct a; try done; symmetry in Hr; by apply py_float_is_float in Hr.
    + revert E. unfold EL.read_analog_value, EL.log. run. by rewrite Hb.
  - intros s s' n v. unfold BC.read_analog_value, BC.log. run.
    destruct (BC.device (self s)) as [d |]; cbn; [ | done ].
    destruct (device_getitem d _ (world s)) as [[e | a] w]; cbn; [ done | ].
    destruct (py_float a) as [e | r] eqn:Hf; cbn; [ done | ].
    intros [= <- _]. by apply py_float_is_float in Hf.
  - intros s b n Hb Ha.
    destruct (read_analog_value_connected s b n Hb) as (-> & _).
    by rewrite Ha.
  - intros s b n f Hb Ha.
    destruct (read_analog_value_connected s b n Hb) as (-> & _).
    by rewrite Ha.
Qed.

(** C4, as the code has it.  On a connected [EventLoopBACnetClient],
    [write_analog_value(instance, value, priority)] makes one call into
    BAC0: [write] of
    "{device_address} analogValue {instance} presentValue {value} - {p}",
    where [p] is the priority given, or 8 when it is omitted; requests that
    differ in nothing but the priority are different strings. *)
Theorem write_request_carries_priority (s : St EL.Client) b n v p :
  EL.bacnet (self s) = Some b ->
  let c := self s in
  network_events (trace (snd (EL.write_analog_value n v p s)))
  = (network_events (trace s)
     ++ [EvWrite b (EL.device_address c ++ " analogValue " ++ pretty n
                    ++ " presentValue " ++ py_str v ++ " - "
                    ++ pretty (default 8 p))])%list
  /\ (forall q, EL.write_request c n v q = EL.write_request c n v (default 8 p) ->
                q = default 8 p).
Proof.
  intros Hb. cbn zeta. split.
  - unfold EL.write_analog_value, EL.write_request, EL.log. run. rewrite Hb. cbn.
    destruct (bacnet_write b _ (world s)) as [[e | r] w]; cbn; net; done.
  - intros q E. unfold EL.write_request in E.
    repeat apply String.app_inj in E. by apply pretty_Z_inj in E.
Qed.

(** [BACnetClient.write_analog_value] only logs its priority: two writes
    that differ in the priority make the same calls and leave the same
    attributes and world. *)
Lemma BACnetClient_write_ignores_priority (s : St BC.Client) n v p q :
  let r1 := BC.write_analog_value n v p s in
  let r2 := BC.write_analog_value n v q s in
  fst r1 = fst r2 /\ self (snd r1) = self (snd r2)
  /\ world (snd r1) = world (snd r2)
  /\ calls (trace (snd r1)) = calls (trace (snd r2)).
Proof.
  cbn zeta. unfold BC.write_analog_value, BC.log. run.
  destruct (BC.device (self s)) as [d |]; cbn.
  - destruct (device_setitem d _ v (world s)) as [[e | []] w]; cbn; net; done.
  - net. done.
Qed.

(** C3.  With [self.bacnet] still [None], [disconnect()] returns without
    raising, in both classes.  [BACnetClient] does nothing at all;
    [EventLoopBACnetClient] at most stops an event loop left running by a
    failed [connect()], makes no call into BAC0, and on a client that was
    just built does nothing at all. *)
Theorem disconnect_before_connect_is_safe :
  (forall s : St BC.Client,
      BC.bacnet (self s) = None -> BC.disconnect s = (inr tt, s))
  /\ (forall s : St EL.Client,
         EL.bacnet (self s) = None ->
         fst (EL.disconnect s) = inr tt
         /\ self (snd (EL.disconnect s)) = self s
         /\ network_events (trace (snd (EL.disconnect s)))
            = network_events (trace s))
  /\ (forall lip dip did bbmd ttl w tr,
         let s := mkSt (EL.init lip dip did bbmd ttl) w tr in
         EL.disconnect s = (inr tt, s)).
Proof.
  split_and!.
  - intros s Hb. unfold BC.disconnect. run. by rewrite Hb.
  - intros s Hb. unfold EL.disconnect, EL._stop_event_loop, EL.log. run.
    rewrite Hb. cbn.
    destruct (EL.loop (self s)) as [l |]; cbn; [ | done ].
    destruct (loop_is_running l (world s)); cbn; [ | done ].
    destruct (loop_stop l (world s)) as [[e | []] w]; cbn; [ net; done | ].
    destruct (EL.loop_thread (self s)) as [t |]; cbn; [ | net; done ].
    destruct (thread_join t w) as [[e | []] w']; cbn; net; done.
  - intros. reflexivity.
Qed.

(** C2, as the code has it.  [connect()] never looks at [self.bacnet].
    [BACnetClient.connect()] starts by calling the library constructor,
    whatever the state; when the constructor, [BAC0.device] and the device
    name answer, it returns with the new network and device in place of
    the old ones.  [EventLoopBACnetClient.connect()] on a client whose loop
    thread is alive starts no second thread, has the loop run
    [_async_connect], and when that answers returns with the new network in
    place of the old one. *)
Theorem connect_always_reconnects :
  (forall s : St BC.Client,
      let c := self s in
      exists rest,
        calls (trace (snd (BC.connect s)))
        = (calls (trace s)
           ++ constructor_event (BC.local_ip c) (BC.bbmd_address c) (BC.bbmd_ttl c)
              :: rest)%list)
  /\ (forall (s : St BC.Client) b w1 d w2 name w3,
         let c := self s in
         let address := BC.device_ip c ++ ":" ++ pretty (BC.device_id c) in
         constructor (BC.local_ip c) (BC.bbmd_address c) (BC.bbmd_ttl c) (world s)
         = (inr b, w1) ->
         BAC0_device address (BC.device_id c) b w1 = (inr (Some d), w2) ->
         device_name d w2 = (inr name, w3) ->
         fst (BC.connect s) = inr tt
         /\ self (snd (BC.connect s))
            = BC.with_device (Some d) (BC.with_bacnet (Some b) c)
         /\ world (snd (BC.connect s)) = w3
         /\ calls (trace (snd (BC.connect s)))
            = (calls (trace s)
               ++ [constructor_event (BC.local_ip c) (BC.bbmd_address c)
                     (BC.bbmd_ttl c);
                   EvDevice address (BC.device_id c) b; EvDevName d])%list)
  /\ (forall (s : St EL.Client) t l w1 b w2,
         let c := self s in
         EL.loop_thread c = Some t ->
         thread_is_alive t (world s) = true ->
         EL.loop c = Some l ->
         loop_run l (world s) = (inr tt, w1) ->
         constructor (EL.local_ip c) (EL.bbmd_address c) (EL.bbmd_ttl c) w1
         = (inr b, w2) ->
         fst (EL.connect s) = inr tt
         /\ self (snd (EL.connect s)) = EL.with_bacnet (Some b) c
         /\ world (snd (EL.connect s)) = w2
         /\ calls (trace (snd (EL.connect s)))
            = (calls (trace s)
               ++ [EvLoopRun l;
                   constructor_event (EL.local_ip c) (EL.bbmd_address c)
                     (EL.bbmd_ttl c);
                   EvSleep 2])%list).
Proof.
  split_and!.
  - intros s. cbn zeta.
    unfold BC.connect, BC.update, BC.log, constructor_event. run.
    destruct (nonempty (BC.bbmd_address (self s))) as [bbmd |]; cbn.
    + destruct (BAC0_connect _ bbmd _ (world s)) as [[e | b] w1]; cbn;
        [ eexists; net; reflexivity | ].
      destruct (BAC0_device _ _ b w1) as [[e | [d |]] w2]; cbn;
        [ eexists; net; reflexivity | | eexists; net; reflexivity ].
      destruct (device_name d w2) as [[e | name] w3]; cbn;
        eexists; net; reflexivity.
    + destruct (BAC0_lite _ (world s)) as [[e | b] w1]; cbn;
        [ eexists; net; reflexivity | ].
      destruct (BAC0_device _ _ b w1) as [[e | [d |]] w2]; cbn;
        [ eexists; net; reflexivity | | eexists; net; reflexivity ].
      destruct (device_name d w2) as [[e | name] w3]; cbn;
        eexists; net; reflexivity.
  - intros s b w1 d w2 name w3. cbn zeta.
    unfold BC.connect, BC.update, BC.log, constructor, constructor_event. run.
    destruct (nonempty (BC.bbmd_address (self s))) as [bbmd |]; cbn;
      intros -> ; cbn; intros ->; cbn; intros ->; cbn; net; done.
  - intros s t l w1 b w2. cbn zeta. intros Ht Ha Hl Hr.
    unfold EL.connect, EL._start_event_loop, EL._async_connect, EL.update,
      EL.log, constructor, constructor_event. run.
    rewrite Ht. cbn. rewrite Ha. cbn. rewrite Hl. cbn. rewrite Hr. cbn.
    destruct (nonempty (EL.bbmd_address (self s))) as [bbmd |]; cbn;
      intros ->; cbn; net; done.
Qed.

End Clients.

(** ** The retry knobs *)

Section Retry.
Context `{PyFloats} `{!Environment}.

Lemma py_range_nil lo hi : hi <= lo -> py_range lo hi = [].
Proof. intros. unfold py_range. by replace (Z.to_nat (hi - lo)) with 0%nat by lia. Qed.

Lemma py_range_cons lo hi : lo < hi -> py_range lo hi = lo :: py_range (lo + 1) hi.
Proof.
  intros. unfold py_range.
  replace (Z.to_nat (hi - lo)) with (S (Z.to_nat (hi - (lo + 1)))) by lia.
  cbn [seq map]. f_equal; [ lia | ].
  rewrite <- seq_shift, map_map. apply map_ext. intros i. lia.
Qed.

(** What [bacnet_config] puts in the two retry fields. *)
Lemma bacnet_config_retry env config :
  Conftest.bacnet_config env = inr config ->
  py_int (Conftest.getenv env "TEST_RETRY_COUNT" "3")
  = inr (Conftest.retry_count config)
  /\ py_int (Conftest.getenv env "TEST_RETRY_DELAY" "2")
     = inr (Conftest.retry_delay config).
Proof.
  unfold Conftest.bacnet_config, Conftest.bindE.
  repeat match goal with
         | |- context [match ?x with inl _ => _ | inr _ => _ end] =>
             destruct x as [? | ?]; try done
         end.
  destruct (Conftest.missing_fields _); [ | done ].
  by intros [= <-].
Qed.

(** The client logs under its own name and never sleeps while reading. *)
Lemma read_analog_value_no_test_steps n (s : St EL.Client) :
  T.test_steps (trace (snd (EL.read_analog_value n s))) = T.test_steps (trace s).
Proof.
  unfold EL.read_analog_value, EL.log, T.test_steps. run.
  destruct (EL.bacnet (self s)) as [b |]; cbn.
  - destruct (bacnet_read b _ (world s)) as [[e | v] w]; cbn.
    + rewrite !List.filter_app. cbn. by rewrite !app_nil_r.
    + destruct v; cbn; try destruct (py_float _); cbn;
        rewrite !List.filter_app; cbn; by rewrite !app_nil_r.
  - rewrite !List.filter_app. cbn. by rewrite !app_nil_r.
Qed.

(** One turn of the loop: an attempt, followed by a sleep exactly when the
    loop goes on, which it does not do after attempt [max_retries]. *)
Lemma retry_turn_steps attempt instance max_retries retry_delay (s : St EL.Client) :
  let r := T.retry_turn attempt instance max_retries retry_delay s in
  match fst r with
  | inr None =>
      attempt <> max_retries
      /\ T.test_steps (trace (snd r))
         = (T.test_steps (trace s)
            ++ [T.attempt_log attempt max_retries; EvSleep retry_delay])%list
  | _ =>
      T.test_steps (trace (snd r))
      = (T.test_steps (trace s) ++ [T.attempt_log attempt max_retries])%list
  end.
Proof.
  cbn zeta. unfold T.retry_turn, T.tlog. run.
  pose proof (read_analog_value_no_test_steps instance
                (mkSt (self s) (world s)
                   (trace s ++ [T.attempt_log attempt max_retries]))) as Hs.
  cbn [trace] in Hs.
  destruct (EL.read_analog_value instance _) as [[e | v] s1]; cbn in Hs |- *.
  all: unfold T.test_steps in *; rewrite List.filter_app in Hs; cbn in Hs.
  all: try destruct v; cbn.
  all: destruct (attempt =? max_retries) eqn:Hm; cbn;
    try destruct (retry_delay <? 0); cbn;
    rewrite ?List.filter_app, ?Hs; cbn; rewrite ?app_nil_r, <- ?app_assoc;
    first [ done | split; [ lia | done ] ].
Qed.

Lemma retry_loop_steps (n : nat) :
  forall first instance max_retries retry_delay (s : St EL.Client),
    first + Z.of_nat n = max_retries + 1 ->
    exists k : nat,
      (k <= n)%nat /\ (n <> 0%nat -> k <> 0%nat)
      /\ T.test_steps
           (trace (snd (T.retry_loop (py_range first (max_retries + 1))
                          instance max_retries retry_delay s)))
         = (T.test_steps (trace s)
            ++ T.attempts_from first k max_retries retry_delay)%list.
Proof.
  induction n as [| n IH]; intros first instance max_retries retry_delay s Hn.
  - exists 0%nat. rewrite py_range_nil by lia. cbn. by rewrite app_nil_r.
  - rewrite py_range_cons by lia. cbn [T.retry_loop]. unfold bind at 1.
    pose proof (retry_turn_steps first instance max_retries retry_delay s) as Ht.
    cbn zeta in Ht.
    destruct (T.retry_turn first instance max_retries retry_delay s)
      as [[e | [v |]] s1]; cbn in Ht |- *.
    + exists 1%nat. split_and!; [ lia | done | done ].
    + exists 1%nat. split_and!; [ lia | done | done ].
    + destruct Ht as [Hne Ht].
      destruct (IH (first + 1) instance max_retries retry_delay s1)
        as (k & Hk & Hk0 & Hsteps); [ lia | ].
      exists (S k). split_and!; [ lia | done | ].
      rewrite Hsteps, Ht, <- app_assoc.
      destruct k as [| k]; [ exfalso; apply Hk0; [ lia | done ] | done ].
Qed.

(** C8.  When [TEST_RETRY_COUNT] is unset the configuration built by
    [bacnet_config] has [retry_count = 3], and when [TEST_RETRY_DELAY] is
    unset, [retry_delay = 2].  [test_read_analog_value_with_retry] makes
    [k] attempts, numbered from 1, where [k] is at most [retry_count], and
    sleeps [retry_delay] seconds between two consecutive attempts and at no
    other time. *)
Theorem retry_defaults_and_discipline
    (env : gmap string string) (config : Conftest.Config) (s : St EL.Client) :
  Conftest.bacnet_config env = inr config ->
  (env !! "TEST_RETRY_COUNT" = None -> Conftest.retry_count config = 3)
  /\ (env !! "TEST_RETRY_DELAY" = None -> Conftest.retry_delay config = 2)
  /\ exists k : nat,
       Z.of_nat k <= Z.max 0 (Conftest.retry_count config)
       /\ T.test_steps
            (trace (snd (T.test_read_analog_value_with_retry config s)))
          = (T.test_steps (trace s)
             ++ T.attempts_from 1 k (Conftest.retry_count config)
                  (Conftest.retry_delay config))%list.
Proof.
  intros Hc. destruct (bacnet_config_retry env config Hc) as [Hcount Hdelay].
  unfold Conftest.getenv in Hcount, Hdelay. split_and!.
  - intros Hu. rewrite Hu in Hcount. by injection Hcount.
  - intros Hu. rewrite Hu in Hdelay. by injection Hdelay.
  - unfold T.test_read_analog_value_with_retry.
    destruct (retry_loop_steps (Z.to_nat (Conftest.retry_count config)) 1
                (Conftest.analog_value_instance config)
                (Z.max 0 (Conftest.retry_count config))
                (Conftest.retry_delay config) s) as (k & Hk & _ & Hsteps);
      [ lia | ].
    destruct (Z.le_gt_cases 0 (Conftest.retry_count config)) as [Hpos | Hneg].
    + rewrite Z.max_r in Hsteps by lia. exists k. split; [ lia | exact Hsteps ].
    + exists 0%nat. split; [ lia | ].
      rewrite py_range_nil by lia. cbn. by rewrite app_nil_r.
Qed.

End Retry.

(** ** The simulated device: instances and counterexamples *)

Section Simulation.
Import Sim.

Lemma el_connected_reachable :
  EL.reachable (EL.init "10.0.0.2" "10.0.0.5" 1234 None None) el_connected.
Proof. apply EL.reach_invoke, EL.reach_init. Qed.

Lemma not_connected_fails_immediately_witness :
  EL.bacnet (self el_fresh) = None
  /\ fst (EL.read_analog_value 1 el_fresh) = inl EL.not_connected
  /\ fst (EL.whois el_fresh) = inl EL.not_connected.
Proof.
  split; [ reflexivity | ].
  destruct (not_connected_fails_immediately el_fresh eq_refl 1 test_value
              None "analogValue" "units")
    as ((Hr & _) & _ & _ & (Hw & _)).
  exact (conj Hr Hw).
Defined.

(** C2 fails on the code: a second [connect()] on a connected client
    returns normally with another network instance in [self.bacnet], in
    both classes. *)
Lemma connect_twice_is_not_a_noop :
  (EL.bacnet (self el_connected) = Some 3%N
   /\ fst (EL.connect el_connected) = inr tt
   /\ EL.bacnet (self (snd (EL.connect el_connected))) = Some 4%N
   /\ self (snd (EL.connect el_connected)) <> self el_connected)
  /\ (BC.bacnet (self bc_connected) = Some 1%N
      /\ fst (BC.connect bc_connected) = inr tt
      /\ BC.bacnet (self (snd (BC.connect bc_connected))) = Some 3%N
      /\ self (snd (BC.connect bc_connected)) <> self bc_connected).
Proof.
  split; (split_and!; [ by vm_compute .. | ]).
  - intros E. apply (f_equal EL.bacnet) in E. vm_compute in E. discriminate E.
  - intros E. apply (f_equal BC.bacnet) in E. vm_compute in E. discriminate E.
Qed.

Lemma connect_always_reconnects_witness :
  fst (EL.connect el_connected) = inr tt
  /\ self (snd (EL.connect el_connected))
     = EL.with_bacnet (Some 4%N) (self el_connected)
  /\ fst (BC.connect bc_connected) = inr tt
  /\ self (snd (BC.connect bc_connected))
     = BC.with_device (Some 4%N) (BC.with_bacnet (Some 3%N) (self bc_connected)).
Proof.
  destruct connect_always_reconnects as (_ & Hbc & Hel).
  edestruct (Hel el_connected 1%N 2%N) as (Hr & Hs & _);
    [ vm_compute; reflexivity .. | ].
  edestruct (Hbc bc_connected) as (Hr' & Hs' & _);
    [ vm_compute; reflexivity .. | ].
  exact (conj Hr (conj Hs (conj Hr' Hs'))).
Defined.

Lemma disconnect_before_connect_is_safe_witness :
  BC.disconnect bc_fresh = (inr tt, bc_fresh)
  /\ fst (EL.disconnect el_fresh) = inr tt.
Proof.
  destruct disconnect_before_connect_is_safe as (Hbc & Hel & _).
  destruct (Hel el_fresh eq_refl) as (Hr & _).
  exact (conj (Hbc bc_fresh eq_refl) Hr).
Defined.

(** C4 fails on the code.  With the priority omitted,
    [EventLoopBACnetClient.write_analog_value] sends priority 8, as if 8
    had been given; and [BACnetClient.write_analog_value] makes the same
    calls for priority 1 and for priority 16. *)
Lemma omitted_priority_is_sent :
  network_events (trace (snd (EL.write_analog_value 1 test_value None el_connected)))
  = (network_events (trace el_connected)
     ++ [EvWrite 3%N "10.0.0.5:1234 analogValue 1 presentValue 75.5 - 8"])%list
  /\ EL.write_analog_value 1 test_value None el_connected
     = EL.write_analog_value 1 test_value (Some 8) el_connected
  /\ calls (trace (snd (BC.write_analog_value 1 test_value (Some 1) bc_connected)))
     = (calls (trace bc_connected) ++ [EvSetItem 2%N "analogValue:1" test_value])%list
  /\ calls (trace (snd (BC.write_analog_value 1 test_value (Some 16) bc_connected)))
     = (calls (trace bc_connected) ++ [EvSetItem 2%N "analogValue:1" test_value])%list.
Proof. split_and!; by vm_compute. Qed.

Lemma write_request_carries_priority_witness :
  network_events
    (trace (snd (EL.write_analog_value 1 test_value (Some 12) el_connected)))
  = (network_events (trace el_connected)
     ++ [EvWrite 3%N "10.0.0.5:1234 analogValue 1 presentValue 75.5 - 12"])%list.
Proof.
  destruct (write_request_carries_priority el_connected 3%N 1 test_value
              (Some 12) eq_refl) as [Hn _].
  exact Hn.
Defined.

Lemma device_info_reads_are_lenient_witness :
  exists info : gmap string PyVal,
    fst (EL.get_device_info el_connected) = inr info
    /\ info !! "name" = Some (VStr "AHU-1")
    /\ info !! "description" = Some (VStr "Unknown").
Proof.
  destruct (device_info_reads_are_lenient el_connected 3%N eq_refl)
    as (info & Hi & Hn & _ & _ & Hd & _).
  exists info. exact (conj Hi (conj Hn Hd)).
Defined.

Lemma read_analog_value_request_witness :
  network_events (trace (snd (EL.read_analog_value 1 el_connected)))
  = (network_events (trace el_connected)
     ++ [EvRead 3%N "10.0.0.5:1234 analogValue 1 presentValue"])%list.
Proof.
  destruct (read_analog_value_request "10.0.0.2" "10.0.0.5" 1234 None None
              el_connected 3%N 1 el_connected_reachable eq_refl) as [_ Hn].
  exact Hn.
Defined.

Lemma retry_defaults_and_discipline_witness :
  Conftest.bacnet_config dotenv = inr dotenv_config
  /\ Conftest.retry_count dotenv_config = 3
  /\ Conftest.retry_delay dotenv_config = 2.
Proof.
  assert (Conftest.bacnet_config dotenv = inr dotenv_config) as Hc
    by (vm_compute; reflexivity).
  destruct (retry_defaults_and_discipline dotenv dotenv_config el_fresh Hc)
    as (Hcount & Hdelay & _).
  exact (conj Hc (conj (Hcount eq_refl) (Hdelay eq_refl))).
Defined.

Lemma get_device_info_total_witness :
  exists info : gmap string PyVal,
    fst (EL.get_device_info el_connected) = inr info
    /\ info !! "device_id" = Some (VInt 1234)
    /\ info !! "device_address" = Some (VStr "10.0.0.5:1234").
Proof.
  destruct (get_device_info_total "10.0.0.2" "10.0.0.5" 1234 None None
              el_connected el_connected_reachable)
    as (info & Hi & Hid & Ha & _).
  exists info. exact (conj Hi (conj Hid Ha)).
Defined.

Lemma read_analog_value_returns_float_witness :
  (exists f, fst (EL.read_analog_value 1 el_connected) = inr (VFloat f))
  /\ fst (EL.read_analog_value 1
            (mkSt (self el_connected) (mkWorld 4 true VNone) []))
     = inl (mkExn ValueError "Failed to read AnalogValue:1 - got None response").
Proof.
  destruct read_analog_value_returns_float as (Hel & _ & Hnone & _).
  split.
  - destruct (Hel el_connected (snd (EL.read_analog_value 1 el_connected)) 1
                (present_value world0) eq_refl) as [f Hf].
    exists f. exact (f_equal inr Hf).
  - exact (Hnone (mkSt (self el_connected) (mkWorld 4 true VNone) []) 3%N 1
             eq_refl eq_refl).
Defined.

End Simulation.

(** * The rest of the harness: properties *)

Ltac keeps_attr :=
  repeat first [ keeps_step
               | progress unfold EL.log, EL.update, EL.read_or_unknown
               | by intros [] ].

(** ** EventLoopBACnetClient: life cycle *)

Section EventLoopLifeCycle.
Context `{PyFloats} `{!Environment}.

(** [disconnect()] returns, whatever the state and the library do. *)
Lemma EL_disconnect_returns (s : St EL.Client) : fst (EL.disconnect s) = inr tt.
Proof.
  unfold EL.disconnect, EL._stop_event_loop, EL.update, EL.log. run.
  destruct (EL.bacnet (self s)) as [b |]; cbn.
  - destruct (bacnet_disconnect b (world s)) as [[e | []] w]; cbn; [ done | ].
    destruct (EL.loop (self s)) as [l |]; cbn; [ | done ].
    destruct (loop_is_running l w); cbn; [ | done ].
    destruct (loop_stop l w) as [[e | []] w1]; cbn; [ done | ].
    destruct (EL.loop_thread (self s)) as [t |]; cbn; [ | done ].
    by destruct (thread_join t w1) as [[e | []] w2].
  - destruct (EL.loop (self s)) as [l |]; cbn; [ | done ].
    destruct (loop_is_running l (world s)); cbn; [ | done ].
    destruct (loop_stop l (world s)) as [[e | []] w1]; cbn; [ done | ].
    destruct (EL.loop_thread (self s)) as [t |]; cbn; [ | done ].
    by destruct (thread_join t w1) as [[e | []] w2].
Qed.

(** X1.  [EventLoopBACnetClient.disconnect()] never raises, and the only
    attribute it can change is [self.bacnet], which it sets to [None]:
    [self.loop] and [self.loop_thread] keep the stopped loop and thread. *)
Theorem disconnect_never_raises (s : St EL.Client) :
  fst (EL.disconnect s) = inr tt
  /\ (self (snd (EL.disconnect s)) = self s
      \/ self (snd (EL.disconnect s)) = EL.with_bacnet None (self s)).
Proof.
  split; [ apply EL_disconnect_returns | ].
  unfold EL.disconnect, EL._stop_event_loop, EL.update, EL.log. run.
  destruct (EL.bacnet (self s)) as [b |]; cbn.
  - destruct (bacnet_disconnect b (world s)) as [[e | []] w]; cbn; [ by left | ].
    destruct (EL.loop (self s)) as [l |]; cbn; [ | by right ].
    destruct (loop_is_running l w); cbn; [ | by right ].
    destruct (loop_stop l w) as [[e | []] w1]; cbn; [ by right | ].
    destruct (EL.loop_thread (self s)) as [t |]; cbn; [ | by right ].
    destruct (thread_join t w1) as [[e | []] w2]; by right.
  - destruct (EL.loop (self s)) as [l |]; cbn; [ | by left ].
    destruct (loop_is_running l (world s)); cbn; [ | by left ].
    destruct (loop_stop l (world s)) as [[e | []] w1]; cbn; [ by left | ].
    destruct (EL.loop_thread (self s)) as [t |]; cbn; [ | by left ].
    destruct (thread_join t w1) as [[e | []] w2]; by left.
Qed.

(** X2.  When the library's [disconnect()] raises, the exception is logged
    and swallowed: [EventLoopBACnetClient.disconnect()] returns normally
    with [self.bacnet] still set, it has not slept, and it has not stopped
    the event loop. *)
Theorem disconnect_swallows_library_failure (s : St EL.Client) b e w :
  EL.bacnet (self s) = Some b ->
  bacnet_disconnect b (world s) = (inl e, w) ->
  fst (EL.disconnect s) = inr tt
  /\ self (snd (EL.disconnect s)) = self s
  /\ world (snd (EL.disconnect s)) = w
  /\ calls (trace (snd (EL.disconnect s))) = (calls (trace s) ++ [EvDisconnect b])%list.
Proof.
  intros Hb Hd. unfold EL.disconnect, EL.log. run. rewrite Hb. cbn.
  rewrite Hd. cbn. net. done.
Qed.

(** X3.  When the library's [disconnect()] returns, [self.bacnet] is
    [None] afterwards and the guarded operations are refused with
    [ConnectionError]. *)
Theorem disconnect_then_operations_are_refused (s : St EL.Client) b w :
  EL.bacnet (self s) = Some b ->
  bacnet_disconnect b (world s) = (inr tt, w) ->
  let s' := snd (EL.disconnect s) in
  EL.bacnet (self s') = None
  /\ (forall n, fst (EL.read_analog_value n s') = inl EL.not_connected)
  /\ (forall n v p, fst (EL.write_analog_value n v p s') = inl EL.not_connected)
  /\ fst (EL.whois s') = inl EL.not_connected.
Proof.
  intros Hb Hd. cbn zeta.
  assert (EL.bacnet (self (snd (EL.disconnect s))) = None) as Hn.
  { unfold EL.disconnect, EL._stop_event_loop, EL.update, EL.log. run.
    rewrite Hb. cbn. rewrite Hd. cbn.
    destruct (EL.loop (self s)) as [l |]; cbn; [ | done ].
    destruct (loop_is_running l w); cbn; [ | done ].
    destruct (loop_stop l w) as [[e | []] w1]; cbn; [ done | ].
    destruct (EL.loop_thread (self s)) as [t |]; cbn; [ | done ].
    by destruct (thread_join t w1) as [[e | []] w2]. }
  split; [ exact Hn | ].
  unfold EL.read_analog_value, EL.write_analog_value, EL.whois, EL.log. run.
  rewrite Hn. done.
Qed.

(** X4.  While the loop thread is alive [_start_event_loop] does nothing.
    Otherwise it starts one new thread, stores it in [self.loop_thread],
    and returns only with a loop in [self.loop]. *)
Theorem start_event_loop_guard (s : St EL.Client) :
  (forall t, EL.loop_thread (self s) = Some t ->
             thread_is_alive t (world s) = true ->
             EL._start_event_loop s = (inr tt, s))
  /\ (EL.loop_thread (self s) = None
      \/ (exists t, EL.loop_thread (self s) = Some t
                    /\ thread_is_alive t (world s) = false) ->
      let t := fst (thread_new (world s)) in
      let s' := snd (EL._start_event_loop s) in
      EL.loop_thread (self s') = Some t
      /\ calls (trace s') = (calls (trace s) ++ [EvThreadStart t])%list
      /\ (fst (EL._start_event_loop s) = inr tt -> is_Some (EL.loop (self s')))).
Proof.
  split.
  - intros t Ht Ha. unfold EL._start_event_loop. run. rewrite Ht. cbn.
    by rewrite Ha.
  - intros Hdead. cbn zeta.
    unfold EL._start_event_loop, EL.update, EL.log. run.
    assert (match EL.loop_thread (self s) with
            | Some t => thread_is_alive t (world s)
            | None => false
            end = false) as Hfalse.
    { destruct Hdead as [-> | (t & -> & Ha)]; done. }
    destruct (EL.loop_thread (self s)) as [t0 |]; cbn in Hfalse |- *;
      rewrite ?Hfalse; cbn;
      destruct (thread_new (world s)) as [t w1]; cbn;
      destruct (thread_start t w1) as [[e | []] w2]; cbn; try (net; done);
      destruct (await_loop _ w2) as [[l |] w3]; cbn; net; done.
Qed.

Lemma EL_connect_outcome (s : St EL.Client) :
  match fst (EL.connect s) with
  | inr _ => is_Some (EL.bacnet (self (snd (EL.connect s))))
  | inl _ => EL.bacnet (self (snd (EL.connect s))) = EL.bacnet (self s)
  end.
Proof.
  unfold EL.connect, EL._start_event_loop, EL._stop_event_loop,
    EL._async_connect, EL.update, EL.log.
  run.
  repeat match goal with
         | |- context [match ?x with _ => _ end] =>
             lazymatch x with
             | context [match _ with _ => _ end] => fail
             | _ => destruct x eqn:?; cbn
             end
         | |- context [if ?x then _ else _] =>
             lazymatch x with
             | context [match _ with _ => _ end] => fail
             | context [if _ then _ else _] => fail
             | _ => destruct x eqn:?; cbn
             end
         end; try done; eauto.
Qed.

(** X5.  [connect()] returns only with a network in [self.bacnet]; when
    it raises, [self.bacnet] is what it was before the call. *)
Theorem connect_outcome (s : St EL.Client) :
  (fst (EL.connect s) = inr tt -> is_Some (EL.bacnet (self (snd (EL.connect s)))))
  /\ (forall e, fst (EL.connect s) = inl e ->
                EL.bacnet (self (snd (EL.connect s))) = EL.bacnet (self s)).
Proof.
  pose proof (EL_connect_outcome s) as Ho.
  destruct (fst (EL.connect s)) as [e | []]; by split.
Qed.

End EventLoopLifeCycle.

(** ** EventLoopBACnetClient: the operations *)

Section EventLoopOperations.
Context `{PyFloats} `{!Environment}.

Lemma EL_operations_keep_self (s : St EL.Client) :
  (forall n, self (snd (EL.read_analog_value n s)) = self s)
  /\ (forall n v p, self (snd (EL.write_analog_value n v p s)) = self s)
  /\ (forall t n p, self (snd (EL.read_property t n p s)) = self s)
  /\ self (snd (EL.whois s)) = self s
  /\ self (snd (EL.get_device_info s)) = self s.
Proof.
  split_and!; intros; symmetry;
    match goal with |- self s = self (snd (?f s)) =>
      revert s; change (keeps eq f) end;
    unfold EL.read_analog_value, EL.write_analog_value, EL.read_property,
      EL.whois, EL.get_device_info;
    keeps_attr.
Qed.

(** X6.  The reads, the write, the discovery and [get_device_info] assign
    no attribute: they leave the object as they found it, whether they
    return or raise, so a connected client stays connected through them. *)
Theorem operations_keep_attributes (s : St EL.Client) :
  (forall n, self (snd (EL.read_analog_value n s)) = self s)
  /\ (forall n v p, self (snd (EL.write_analog_value n v p s)) = self s)
  /\ (forall t n p, self (snd (EL.read_property t n p s)) = self s)
  /\ self (snd (EL.whois s)) = self s
  /\ self (snd (EL.get_device_info s)) = self s.
Proof. exact (EL_operations_keep_self s). Qed.

(** X7.  On a connected client [read_property(type, n, name)] makes one
    call, [read] of "{device_address} {type} {n} {name}", and hands back
    what the library answers as it is: its value, [None] included, or its
    exception. *)
Theorem read_property_passes_answer (s : St EL.Client) b object_type n name :
  EL.bacnet (self s) = Some b ->
  let request := EL.device_address (self s) ++ " " ++ object_type ++ " "
                 ++ pretty n ++ " " ++ name in
  let answer := bacnet_read b request (world s) in
  fst (EL.read_property object_type n name s) = fst answer
  /\ world (snd (EL.read_property object_type n name s)) = snd answer
  /\ calls (trace (snd (EL.read_property object_type n name s)))
     = (calls (trace s) ++ [EvRead b request])%list.
Proof.
  intros Hb. cbn zeta. unfold EL.read_property, EL.log. run. rewrite Hb. cbn.
  destruct (bacnet_read b _ (world s)) as [[e | v] w]; cbn; net; done.
Qed.

(** X8.  On a connected client [whois()] calls the library's [whois],
    sleeps 3 seconds and returns [devices]; when [whois] raises it raises
    the same exception without sleeping and without reading [devices]. *)
Theorem whois_connected (s : St EL.Client) b :
  EL.bacnet (self s) = Some b ->
  let sent := bacnet_whois b (world s) in
  let found := bacnet_devices b (snd sent) in
  match fst sent with
  | inl e =>
      fst (EL.whois s) = inl e
      /\ calls (trace (snd (EL.whois s))) = (calls (trace s) ++ [EvWhois b])%list
  | inr _ =>
      fst (EL.whois s) = fst found
      /\ calls (trace (snd (EL.whois s)))
         = (calls (trace s) ++ [EvWhois b; EvSleep 3; EvDevices b])%list
  end.
Proof.
  intros Hb. cbn zeta. unfold EL.whois, EL.log. run. rewrite Hb. cbn.
  destruct (bacnet_whois b (world s)) as [[e | []] w]; cbn; [ net; done | ].
  destruct (bacnet_devices b w) as [[e | ds] w1]; cbn; net; done.
Qed.

#[local] Instance same_config_refl : Reflexive same_config.
Proof. by intros c. Qed.

#[local] Instance same_config_trans : Transitive same_config.
Proof.
  intros a b c (? & ? & ?) (? & ? & ?). unfold same_config.
  by split_and!; etransitivity.
Qed.

Lemma start_event_loop_keeps_config : keeps same_config EL._start_event_loop.
Proof. unfold EL._start_event_loop. keeps_attr. Qed.

Lemma stop_event_loop_keeps_config : keeps same_config EL._stop_event_loop.
Proof. unfold EL._stop_event_loop. keeps_attr. Qed.

Lemma invoke_keeps_config m (s : St EL.Client) :
  same_config (self s) (self (EL.invoke m s)).
Proof.
  destruct m; cbn [EL.invoke];
    match goal with |- same_config _ (self (snd (?f s))) =>
      revert s; change (keeps same_config f) end;
    unfold EL.connect, EL.disconnect, EL._async_connect,
      EL.read_analog_value, EL.write_analog_value, EL.read_property,
      EL.whois, EL.get_device_info;
    repeat first [ apply start_event_loop_keeps_config
                 | apply stop_event_loop_keeps_config
                 | keeps_step
                 | progress unfold EL.log, EL.update, EL.read_or_unknown
                 | by intros [] ].
Qed.

(** X9.  No method assigns the attributes that [__init__] sets from its
    arguments: however a client has been used, [local_ip], [device_ip],
    [device_id], [bbmd_address] and [bbmd_ttl] are the constructor's
    arguments ([bbmd_ttl] is 900 when omitted). *)
Theorem reachable_keeps_configuration lip dip did bbmd ttl (s : St EL.Client) :
  EL.reachable (EL.init lip dip did bbmd ttl) s ->
  EL.local_ip (self s) = lip
  /\ EL.device_ip (self s) = dip
  /\ EL.device_id (self s) = did
  /\ EL.bbmd_address (self s) = bbmd
  /\ EL.bbmd_ttl (self s) = default 900 ttl.
Proof.
  intros Hr.
  assert (same_config (EL.init lip dip did bbmd ttl) (self s))
    as (Hl & Hb & Ht).
  { induction Hr as [w tr | s m _ IH | s w _ IH]; cbn.
    - reflexivity.
    - etransitivity; [ exact IH | apply invoke_keeps_config ].
    - exact IH. }
  destruct (reachable_same_target _ _ Hr) as (Hip & Hid & _).
  done.
Qed.

End EventLoopOperations.

(** ** BACnetClient *)

Module BQ := BACnetClientQueries.

Section BACnetClientProperties.
Context `{PyFloats} `{!Environment} `{!DeviceObjects}.

(** X10.  [BACnetClient.disconnect()] on a connected client: when the
    library's [disconnect()] returns, [self.bacnet] and [self.device] are
    both [None]; when it raises, the exception reaches the caller and both
    attributes are left as they were. *)
Theorem BACnetClient_disconnect_outcomes (s : St BC.Client) b :
  BC.bacnet (self s) = Some b ->
  match bacnet_disconnect b (world s) with
  | (inr _, w) =>
      fst (BC.disconnect s) = inr tt
      /\ self (snd (BC.disconnect s))
         = BC.with_device None (BC.with_bacnet None (self s))
      /\ world (snd (BC.disconnect s)) = w
  | (inl e, w) =>
      fst (BC.disconnect s) = inl e
      /\ self (snd (BC.disconnect s)) = self s
      /\ world (snd (BC.disconnect s)) = w
  end.
Proof.
  intros Hb. unfold BC.disconnect, BC.update, BC.log. run. rewrite Hb. cbn.
  by destruct (bacnet_disconnect b (world s)) as [[e | []] w].
Qed.


(** X12.  [BACnetClient] has no connection check in its point accessors:
    with [self.device] still [None], [read_analog_value] and
    [write_analog_value] raise [TypeError], not [ConnectionError]; nothing
    is changed and no call is made. *)
Theorem BACnetClient_accessors_without_device (s : St BC.Client) n v p :
  BC.device (self s) = None ->
  (fst (BC.read_analog_value n s)
   = inl (mkExn TypeError "'NoneType' object is not subscriptable")
   /\ untouched (BC.read_analog_value n s) s)
  /\ (fst (BC.write_analog_value n v p s)
      = inl (mkExn TypeError "'NoneType' object does not support item assignment")
      /\ untouched (BC.write_analog_value n v p s) s).
Proof.
  intros Hd. unfold BC.read_analog_value, BC.write_analog_value, BC.log, untouched.
  run. rewrite Hd. cbn. net. done.
Qed.

(** X13.  [BACnetClient.get_device_info()] is strict where the event-loop
    client is lenient: without a device it raises
    [ConnectionError("Not connected to device")], and with one it reads
    name, device_id, vendor_name, model_name and description in this
    order and passes on the first exception; only when all five answer
    does it return the dictionary. *)
Theorem BACnetClient_get_device_info_outcomes (s : St BC.Client) :
  match BC.device (self s) with
  | None =>
      fst (BQ.get_device_info s)
      = inl (mkExn ConnectionError "Not connected to device")
      /\ untouched (BQ.get_device_info s) s
  | Some d =>
      let a1 := device_name d (world s) in
      let a2 := device_property d "device_id" (snd a1) in
      let a3 := device_property d "vendor_name" (snd a2) in
      let a4 := device_property d "model_name" (snd a3) in
      let a5 := device_property d "description" (snd a4) in
      fst (BQ.get_device_info s)
      = match fst a1 with inl e => inl e | inr name =>
        match fst a2 with inl e => inl e | inr device_id =>
        match fst a3 with inl e => inl e | inr vendor =>
        match fst a4 with inl e => inl e | inr model =>
        match fst a5 with inl e => inl e | inr description =>
          inr (<["description" := description]>
                 (<["model" := model]>
                    (<["vendor" := vendor]>
                       (<["device_id" := device_id]>
                          (<["name" := name]> ∅)))))
        end end end end end
  end.
Proof.
  unfold BQ.get_device_info, BQ.step, BC.log, untouched. run.
  destruct (BC.device (self s)) as [d |]; cbn; [ | net; done ].
  destruct (device_name d (world s)) as [[e | name] w1]; cbn; [ done | ].
  destruct (device_property d "device_id" w1) as [[e | id] w2]; cbn; [ done | ].
  destruct (device_property d "vendor_name" w2) as [[e | vendor] w3]; cbn; [ done | ].
  destruct (device_property d "model_name" w3) as [[e | model] w4]; cbn; [ done | ].
  by destruct (device_property d "description" w4) as [[e | description] w5].
Qed.

(** X14.  [BACnetClient.read_property(type, n, name)] looks the point
    "{type}:{n}" up on the device: a point that is not found raises
    [ValueError("Point {type}:{n} not found")], while a property the point
    does not have is not an error: the method returns [None]. *)
Theorem BACnetClient_read_property_outcomes (s : St BC.Client) d object_type n name :
  BC.device (self s) = Some d ->
  let point_name := object_type ++ ":" ++ pretty n in
  let found := device_find_point d point_name (world s) in
  fst (BQ.read_property object_type n name s)
  = match fst found with
    | inl e => inl e
    | inr None => inl (mkExn ValueError ("Point " ++ point_name ++ " not found"))
    | inr (Some point) =>
        match fst (point_properties point (snd found)) with
        | inl e => inl e
        | inr properties => inr (default VNone (properties !! name))
        end
    end.
Proof.
  intros Hd. cbn zeta. unfold BQ.read_property, BQ.step, BC.log. run.
  rewrite Hd. cbn.
  destruct (device_find_point d _ (world s)) as [[e | [pt |]] w1]; cbn;
    [ done | | done ].
  by destruct (point_properties pt w1) as [[e | props] w2].
Qed.

End BACnetClientProperties.

(** ** The configuration fixture *)

Module CF := ConftestFixtures.
Module TD := TestDeviceConnection.

Section Configuration_fixture.
Context `{PyFloats}.

Lemma py_int_raises_ValueError s e : py_int s = inl e -> exn_class e = ValueError.
Proof. unfold py_int. destruct (match strip _ with [] => _ | _ => _ end); by intros [= <-]. Qed.

(** Where each field of a configuration comes from. *)
Lemma bacnet_config_fields env config :
  Conftest.bacnet_config env = inr config ->
  Conftest.device_ip config = env !! "BACNET_DEVICE_IP"
  /\ Conftest.local_ip config = env !! "BACNET_LOCAL_IP"
  /\ py_int (Conftest.getenv env "BACNET_DEVICE_ID" "0")
     = inr (Conftest.device_id config)
  /\ py_int (Conftest.getenv env "BACNET_DEVICE_PORT" "47808")
     = inr (Conftest.device_port config)
  /\ py_int (Conftest.getenv env "BACNET_BBMD_TTL" "900")
     = inr (Conftest.bbmd_ttl config)
  /\ py_int (Conftest.getenv env "ANALOG_VALUE_INSTANCE" "1")
     = inr (Conftest.analog_value_instance config)
  /\ py_int (Conftest.getenv env "TEST_TIMEOUT" "30")
     = inr (Conftest.test_timeout config)
  /\ Conftest.bbmd_address config = Conftest.getenv env "BACNET_BBMD_ADDRESS" ""
  /\ Conftest.expected_units config
     = Conftest.getenv env "ANALOG_VALUE_EXPECTED_UNITS" ""
  /\ Conftest.missing_fields config = [].
Proof.
  unfold Conftest.bacnet_config, Conftest.bindE.
  repeat match goal with
         | |- context [match ?x with inl _ => _ | inr _ => _ end] =>
             destruct x as [? | ?]; try done
         end.
  destruct (Conftest.missing_fields _) eqn:Hm; [ | done ].
  intros [= <-]. cbn. by rewrite Hm.
Qed.

(** X15.  [bacnet_config] returns a configuration or raises [ValueError],
    nothing else; a configuration it returns has a non-empty [device_ip],
    a non-empty [local_ip] and a [device_id] other than 0. *)
Theorem bacnet_config_validates (env : gmap string string) :
  match Conftest.bacnet_config env with
  | inr config =>
      (exists ip, Conftest.device_ip config = Some ip /\ ip <> "")
      /\ (exists ip, Conftest.local_ip config = Some ip /\ ip <> "")
      /\ Conftest.device_id config <> 0
  | inl e => exn_class e = ValueError
  end.
Proof.
  destruct (Conftest.bacnet_config env) as [e | config] eqn:Hc.
  - revert Hc. unfold Conftest.bacnet_config, Conftest.bindE,
      Conftest.py_float_of_str.
    repeat match goal with
           | |- context [match py_int ?x with _ => _ end] =>
               destruct (py_int x) as [? | ?] eqn:?;
               [ intros [= <-]; by eapply py_int_raises_ValueError | ]
           | |- context [match float_of_str ?x with _ => _ end] =>
               destruct (float_of_str x); [ | by intros [= <-] ]
           end.
    destruct (Conftest.missing_fields _); [ done | by intros [= <-] ].
  - apply bacnet_config_fields in Hc
      as (_ & _ & _ & _ & _ & _ & _ & _ & _ & Hm).
    unfold Conftest.missing_fields, nonempty in Hm.
    destruct (Conftest.device_ip config) as [d |]; [ | done ].
    destruct (Conftest.local_ip config) as [l |];
      [ | by destruct (String.eqb d ""), (Conftest.device_id config =? 0) ].
    destruct (String.eqb d "") eqn:Hd; [ done | ].
    destruct (Conftest.device_id config =? 0) eqn:Hid; [ done | ].
    destruct (String.eqb l "") eqn:Hl; [ done | ].
    apply String.eqb_neq in Hd, Hl. apply Z.eqb_neq in Hid.
    split_and!; eauto.
Qed.

(** X16.  Each of [BACNET_DEVICE_IP], [BACNET_LOCAL_IP] and
    [BACNET_DEVICE_ID] is required: when one of them is unset,
    [bacnet_config] raises [ValueError].  The device id is required
    through its default 0, which the validation takes for missing. *)
Theorem bacnet_config_requires (env : gmap string string) :
  env !! "BACNET_DEVICE_IP" = None \/ env !! "BACNET_LOCAL_IP" = None
  \/ env !! "BACNET_DEVICE_ID" = None ->
  exists e, Conftest.bacnet_config env = inl e /\ exn_class e = ValueError.
Proof.
  intros Hunset. pose proof (bacnet_config_validates env) as Hv.
  destruct (Conftest.bacnet_config env) as [e | config] eqn:Hc; [ eauto | ].
  exfalso. destruct Hv as ((d & Hd & _) & (l & Hl & _) & Hid).
  apply bacnet_config_fields in Hc as (Hdip & Hlip & Hdid & _).
  destruct Hunset as [Hu | [Hu | Hu]].
  - congruence.
  - congruence.
  - unfold Conftest.getenv in Hdid. rewrite Hu in Hdid. cbn in Hdid.
    apply Hid. by injection Hdid.
Qed.

(** X17.  The other defaults of [bacnet_config]: in a configuration it
    returns, a variable that is unset gives port 47808, BBMD time to live
    900, analog value instance 1, test timeout 30, and the empty string
    for the BBMD address and the expected units. *)
Theorem bacnet_config_defaults (env : gmap string string) config :
  Conftest.bacnet_config env = inr config ->
  (env !! "BACNET_DEVICE_PORT" = None -> Conftest.device_port config = 47808)
  /\ (env !! "BACNET_BBMD_TTL" = None -> Conftest.bbmd_ttl config = 900)
  /\ (env !! "ANALOG_VALUE_INSTANCE" = None ->
      Conftest.analog_value_instance config = 1)
  /\ (env !! "TEST_TIMEOUT" = None -> Conftest.test_timeout config = 30)
  /\ (env !! "BACNET_BBMD_ADDRESS" = None -> Conftest.bbmd_address config = "")
  /\ (env !! "ANALOG_VALUE_EXPECTED_UNITS" = None ->
      Conftest.expected_units config = "").
Proof.
  intros Hc.
  apply bacnet_config_fields in Hc
    as (_ & _ & _ & Hport & Httl & Hinst & Htime & Hbbmd & Hunits & _).
  unfold Conftest.getenv in *.
  split_and!; intros Hu.
  - rewrite Hu in Hport. by injection Hport.
  - rewrite Hu in Httl. by injection Httl.
  - rewrite Hu in Hinst. by injection Hinst.
  - rewrite Hu in Htime. by injection Htime.
  - by rewrite Hu in Hbbmd.
  - by rewrite Hu in Hunits.
Qed.

End Configuration_fixture.

(** ** The tests and the value fixture *)

Section Tests_and_fixtures.
Context `{PyFloats} `{!Environment}.

(** [get_device_info] always returns, with the client's own [device_id]
    and the three names the callers print. *)
Lemma EL_get_device_info_shape (s : St EL.Client) :
  exists info,
    fst (EL.get_device_info s) = inr info
    /\ info !! "device_id" = Some (VInt (EL.device_id (self s)))
    /\ is_Some (info !! "name") /\ is_Some (info !! "vendor")
    /\ is_Some (info !! "model").
Proof.
  unfold EL.get_device_info, EL.read_or_unknown, EL.log, EL.unknown_info. run.
  destruct (EL.bacnet (self s)) as [b |]; cbn.
  - destruct (bacnet_read b _ (world s)) as [[e1 | v1] w1]; cbn;
      destruct (bacnet_read b _ w1) as [[e2 | v2] w2]; cbn;
      destruct (bacnet_read b _ w2) as [[e3 | v3] w3]; cbn;
      destruct (bacnet_read b _ w3) as [[e4 | v4] w4]; cbn;
      (eexists; split; [ reflexivity | ]); split_and!; by simplify_map_eq.
  - eexists. split; [ reflexivity | ]. split_and!; by simplify_map_eq.
Qed.

(** X18.  With the client that [conftest.py] hands out,
    [test_device_connection] cannot fail: in every state of the session
    client, connected or not and whatever the device answers, its
    assertions hold, because [get_device_info] always returns a dictionary
    whose "device_id" is the id the client was built with. *)
Theorem test_device_connection_cannot_fail config client (s : St EL.Client) :
  CF.bacnet_client_new config = Some client ->
  EL.reachable client s ->
  fst (TD.test_device_connection config s) = inr tt.
Proof.
  intros Hnew Hr.
  assert (EL.device_id (self s) = Conftest.device_id config) as Hid.
  { unfold CF.bacnet_client_new in Hnew.
    destruct (Conftest.local_ip config), (Conftest.device_ip config);
      try done.
    injection Hnew as <-.
    by destruct (reachable_same_target _ _ Hr) as (_ & -> & _). }
  destruct (EL_get_device_info_shape s)
    as (info & Hi & Hd & [name Hn] & [vendor Hv] & [model Hm]).
  unfold TD.test_device_connection, TD.subscript, TD.tlog, T.tlog. run.
  destruct (EL.get_device_info s) as [r s1]. cbn in Hi. subst r.
  cbn -[lookup]. rewrite Hd. cbn -[lookup]. rewrite Hid, Z.eqb_refl.
  cbn -[lookup]. rewrite Hn. cbn -[lookup].
  rewrite Hv. cbn -[lookup]. by rewrite Hm.
Qed.

(** The verdict of one turn: only the last attempt can fail the test. *)
Lemma retry_turn_failed attempt instance max_retries retry_delay
    (s : St EL.Client) msg :
  fst (T.retry_turn attempt instance max_retries retry_delay s)
  = inr (Some (T.Failed msg)) ->
  attempt = max_retries
  /\ msg = "Failed to read after " ++ pretty max_retries ++ " attempts".
Proof.
  unfold T.retry_turn, T.tlog. run.
  destruct (EL.read_analog_value instance _) as [[e | v] s1]; cbn.
  all: try destruct v; cbn.
  all: destruct (attempt =? max_retries) eqn:Hm; cbn;
    try destruct (retry_delay <? 0); cbn; try done.
  all: intros [= <-]; split; [ lia | done ].
Qed.

Lemma retry_loop_failed (n : nat) :
  forall first instance max_retries retry_delay (s : St EL.Client) msg,
    first + Z.of_nat n = max_retries + 1 ->
    fst (T.retry_loop (py_range first (max_retries + 1))
           instance max_retries retry_delay s) = inr (T.Failed msg) ->
    n <> 0%nat
    /\ msg = "Failed to read after " ++ pretty max_retries ++ " attempts"
    /\ T.test_steps
         (trace (snd (T.retry_loop (py_range first (max_retries + 1))
                        instance max_retries retry_delay s)))
       = (T.test_steps (trace s)
          ++ T.attempts_from first n max_retries retry_delay)%list.
Proof.
  induction n as [| n IH];
    intros first instance max_retries retry_delay s msg Hn.
  - rewrite py_range_nil by lia. done.
  - rewrite py_range_cons by lia. cbn [T.retry_loop]. unfold bind at 1 2.
    pose proof (retry_turn_steps first instance max_retries retry_delay s) as Ht.
    pose proof (retry_turn_failed first instance max_retries retry_delay s) as Hf.
    cbn zeta in Ht.
    destruct (T.retry_turn first instance max_retries retry_delay s)
      as [[e | [v |]] s1]; cbn in Ht, Hf |- *; [ done | | ].
    + intros [= ->]. destruct (Hf msg eq_refl) as [-> ->].
      assert (n = 0%nat) as -> by lia. done.
    + intros Hfail. destruct Ht as [Hne Ht].
      destruct (IH (first + 1) instance max_retries retry_delay s1 msg)
        as (Hn0 & Hmsg & Hsteps); [ lia | exact Hfail | ].
      split_and!; [ done | done | ].
      rewrite Hsteps, Ht, <- app_assoc.
      by destruct n.
Qed.

(** X19.  [test_read_analog_value_with_retry] fails only after it has
    used up its attempts: when it ends in [pytest.fail], [retry_count] is
    at least 1, exactly [retry_count] attempts were made with a sleep
    between each two, and the message is
    "Failed to read after {retry_count} attempts". *)
Theorem retry_fails_only_when_exhausted config (s : St EL.Client) msg :
  fst (T.test_read_analog_value_with_retry config s) = inr (T.Failed msg) ->
  let retries := Conftest.retry_count config in
  1 <= retries
  /\ msg = "Failed to read after " ++ pretty retries ++ " attempts"
  /\ T.test_steps (trace (snd (T.test_read_analog_value_with_retry config s)))
     = (T.test_steps (trace s)
        ++ T.attempts_from 1 (Z.to_nat retries) retries
             (Conftest.retry_delay config))%list.
Proof.
  unfold T.test_read_analog_value_with_retry. intros Hf. cbn zeta.
  destruct (Z.le_gt_cases 1 (Conftest.retry_count config)) as [Hpos | Hneg].
  - destruct (retry_loop_failed (Z.to_nat (Conftest.retry_count config)) 1
                (Conftest.analog_value_instance config)
                (Conftest.retry_count config) (Conftest.retry_delay config) s msg)
      as (_ & Hmsg & Hsteps); [ lia | exact Hf | done ].
  - rewrite py_range_nil in Hf by lia. done.
Qed.

(** X20.  With [retry_count] at 0 or below the loop has no turn:
    [test_read_analog_value_with_retry] passes without reading anything. *)
Theorem retry_without_attempts_passes config (s : St EL.Client) :
  Conftest.retry_count config <= 0 ->
  T.test_read_analog_value_with_retry config s = (inr T.Passed, s).
Proof.
  intros Hz. unfold T.test_read_analog_value_with_retry.
  by rewrite py_range_nil by lia.
Qed.

(** X21.  When the device answers the first read with a float, the test
    passes after this one attempt: one read request, no sleep. *)
Theorem retry_passes_on_first_answer config (s : St EL.Client) b f :
  1 <= Conftest.retry_count config ->
  EL.bacnet (self s) = Some b ->
  let instance := Conftest.analog_value_instance config in
  let request := EL.read_request (self s) instance in
  fst (bacnet_read b request (world s)) = inr (VFloat f) ->
  let r := T.test_read_analog_value_with_retry config s in
  fst r = inr T.Passed
  /\ calls (trace (snd r)) = (calls (trace s) ++ [EvRead b request])%list.
Proof.
  intros Hpos Hb. cbn zeta. intros Ha.
  unfold T.test_read_analog_value_with_retry.
  rewrite py_range_cons by lia. cbn [T.retry_loop].
  unfold T.retry_turn, T.tlog, EL.read_analog_value, EL.log. run.
  rewrite Hb. cbn.
  destruct (bacnet_read b _ (world s)) as [r w]. cbn in Ha. subst r. cbn.
  unfold py_float. cbn. net. done.
Qed.

(** X22.  The teardown of [original_analog_value] never raises: a failed
    restore is only logged.  On a connected client it writes the value it
    was given back at priority 8. *)
Theorem original_value_teardown config v (s : St EL.Client) :
  fst (CF.original_analog_value_teardown config v s) = inr tt
  /\ (forall b, EL.bacnet (self s) = Some b ->
        network_events
          (trace (snd (CF.original_analog_value_teardown config v s)))
        = (network_events (trace s)
           ++ [EvWrite b (EL.write_request (self s)
                            (Conftest.analog_value_instance config) v 8)])%list).
Proof.
  unfold CF.original_analog_value_teardown, CF.root_log,
    EL.write_analog_value, EL.log.
  run.
  destruct (EL.bacnet (self s)) as [b |]; cbn.
  - destruct (bacnet_write b _ (world s)) as [[e | r] w]; cbn;
      (split; [ done | intros ? [= <-]; net; done ]).
  - done.
Qed.

End Tests_and_fixtures.

(** ** What a computation emits *)

Section Emits.
Context `{PyFloats} `{!Environment} {C : Type} (P : Event -> Prop).

Lemma emits_silent {A} (m : M C A) :
  (forall s, trace (snd (m s)) = trace s) -> emits P m.
Proof. intros Hm s. exists []. by rewrite Hm, app_nil_r. Qed.

Lemma emits_ret {A} (a : A) : emits P (@ret _ _ C A a).
Proof. by apply emits_silent. Qed.

Lemma emits_raise {A} e : emits P (@raise _ _ C A e).
Proof. by apply emits_silent. Qed.

Lemma emits_lift {A} (r : Exn + A) : emits P (@lift _ _ C A r).
Proof. by apply emits_silent. Qed.

Lemma emits_get : emits P (@get _ _ C).
Proof. by apply emits_silent. Qed.

Lemma emits_put c : emits P (@put _ _ C c).
Proof. by apply emits_silent. Qed.

Lemma emits_observe {A} (f : World -> A) : emits P (@observe _ _ C A f).
Proof. by apply emits_silent. Qed.

Lemma emits_ask {A} (f : World -> A * World) : emits P (@ask _ _ C A f).
Proof. apply emits_silent. intros s. unfold ask. by destruct (f (world s)). Qed.

Lemma emits_emit ev : P ev -> emits P (@emit _ _ C ev).
Proof. intros Hev s. exists [ev]. cbn. split; [ done | by constructor ]. Qed.

Lemma emits_call {A} ev (f : World -> (Exn + A) * World) :
  P ev -> emits P (@call _ _ C A ev f).
Proof.
  intros Hev s. exists [ev]. unfold call. destruct (f (world s)). cbn.
  split; [ done | by constructor ].
Qed.

Lemma emits_sleep z : P (EvSleep z) -> emits P (@sleep _ _ C z).
Proof.
  intros Hev. unfold sleep.
  destruct (z <? 0); [ apply emits_raise | by apply emits_emit ].
Qed.

Lemma emits_bind {A B} (m : M C A) (k : A -> M C B) :
  emits P m -> (forall a, emits P (k a)) -> emits P (bind m k).
Proof.
  intros Hm Hk s. unfold bind. destruct (Hm s) as (evs & Ht & Hevs).
  destruct (m s) as [[e | a] s']; cbn in *; [ by exists evs | ].
  destruct (Hk a s') as (evs' & Ht' & Hevs').
  exists (evs ++ evs')%list. rewrite Ht', Ht, app_assoc.
  split; [ done | by apply Forall_app ].
Qed.

Lemma emits_try {A} (m : M C A) (h : Exn -> M C A) :
  emits P m -> (forall e, emits P (h e)) -> emits P (try_except m h).
Proof.
  intros Hm Hh s. unfold try_except. destruct (Hm s) as (evs & Ht & Hevs).
  destruct (m s) as [[e | a] s']; cbn in *; [ | by exists evs ].
  destruct (Hh e s') as (evs' & Ht' & Hevs').
  exists (evs ++ evs')%list. rewrite Ht', Ht, app_assoc.
  split; [ done | by apply Forall_app ].
Qed.

End Emits.

Ltac emits_step :=
  match goal with
  | |- emits _ (bind _ _) => apply emits_bind; [ | intros ? ]
  | |- emits _ (try_except _ _) => apply emits_try; [ | intros ? ]
  | |- emits _ (ret _) => apply emits_ret
  | |- emits _ (raise _) => apply emits_raise
  | |- emits _ (lift _) => apply emits_lift
  | |- emits _ get => apply emits_get
  | |- emits _ (put _) => apply emits_put
  | |- emits _ (emit _) => apply emits_emit; reflexivity
  | |- emits _ (observe _) => apply emits_observe
  | |- emits _ (ask _) => apply emits_ask
  | |- emits _ (call _ _) => apply emits_call; reflexivity
  | |- emits _ (sleep _) => apply emits_sleep; reflexivity
  | |- emits _ (match ?x with _ => _ end) => destruct x
  | |- emits _ (if ?x then _ else _) => destruct x
  end.

Ltac emits_auto :=
  repeat first [ emits_step
               | progress unfold EL.log, EL.update, EL.read_or_unknown ].

(** ** The event-loop script *)

Module TS := TestEventLoopScript.

Section Script.
Context `{PyFloats} `{!Environment}.

Lemma quiet_disconnects {C A} (m : M C A) (s : St C) :
  emits quiet m -> disconnects (trace (snd (m s))) = disconnects (trace s).
Proof.
  intros Hm. destruct (Hm s) as (evs & -> & Hevs).
  unfold disconnects. rewrite List.filter_app.
  replace (List.filter is_disconnect evs) with (@nil Event);
    [ by rewrite app_nil_r | ].
  induction Hevs as [| ev evs Hev _ IH]; [ done | ].
  cbn. by rewrite Hev.
Qed.

Lemma EL_connect_quiet : emits quiet EL.connect.
Proof.
  unfold EL.connect, EL._start_event_loop, EL._stop_event_loop,
    EL._async_connect.
  emits_auto.
Qed.

Lemma EL_read_analog_value_quiet n : emits quiet (EL.read_analog_value n).
Proof. unfold EL.read_analog_value. emits_auto. Qed.

Lemma EL_get_device_info_quiet : emits quiet EL.get_device_info.
Proof. unfold EL.get_device_info. emits_auto. Qed.

(** A connected client calls the library's [disconnect()] once. *)
Lemma EL_disconnect_disconnects (s : St EL.Client) b :
  EL.bacnet (self s) = Some b ->
  disconnects (trace (snd (EL.disconnect s)))
  = (disconnects (trace s) ++ [EvDisconnect b])%list.
Proof.
  intros Hb. unfold EL.disconnect, EL._stop_event_loop, EL.update, EL.log,
    disconnects.
  run. rewrite Hb. cbn.
  destruct (bacnet_disconnect b (world s)) as [[e | []] w]; cbn.
  { rewrite !List.filter_app. cbn. by rewrite !app_nil_r. }
  destruct (EL.loop (self s)) as [l |]; cbn;
    [ | rewrite !List.filter_app; cbn; by rewrite !app_nil_r ].
  destruct (loop_is_running l w); cbn;
    [ | rewrite !List.filter_app; cbn; by rewrite !app_nil_r ].
  destruct (loop_stop l w) as [[e | []] w1]; cbn;
    [ rewrite !List.filter_app; cbn; by rewrite !app_nil_r | ].
  destruct (EL.loop_thread (self s)) as [t |]; cbn;
    [ | rewrite !List.filter_app; cbn; by rewrite !app_nil_r ].
  destruct (thread_join t w1) as [[e | []] w2]; cbn;
    rewrite !List.filter_app; cbn; by rewrite !app_nil_r.
Qed.

Local Arguments EL.connect : simpl never.
Local Arguments EL.disconnect : simpl never.
Local Arguments EL.read_analog_value : simpl never.
Local Arguments EL.get_device_info : simpl never.

Ltac dis :=
  unfold disconnects in *; rewrite ?List.filter_app in *;
  cbn [List.filter is_disconnect app] in *; rewrite ?app_nil_r in *.

Ltac run_script :=
  lazy beta iota zeta delta
    [TS.test_eventloop_client TS.slog TS.on_object
     try_except bind ret raise get put emit call ask observe lift sleep
     fst snd self world trace].

(** X23.  [test_eventloop_client()] never raises: it returns [True] or
    [False].  It calls the library's [disconnect()] only at the very end of
    a successful run: a run that returns [True] has made exactly one such
    call, and a run that returns [False], for instance because the read
    failed after [connect()] succeeded, has made none and leaves the
    connection open. *)
Theorem script_disconnects_only_on_success env (s : St unit) :
  let r := TS.test_eventloop_client env s in
  exists ok : bool,
    fst r = inr ok
    /\ if ok then
         exists b, disconnects (trace (snd r))
                   = (disconnects (trace s) ++ [EvDisconnect b])%list
       else disconnects (trace (snd r)) = disconnects (trace s).
Proof.
  destruct s as [[] w tr]. run_script.
  destruct (py_int (Conftest.getenv env "BACNET_DEVICE_ID" "0"))
    as [e | device_id]; [ exists false; split; [ done | dis; congruence ] | ].
  destruct (py_int (Conftest.getenv env "ANALOG_VALUE_INSTANCE" "1"))
    as [e | instance]; [ exists false; split; [ done | dis; congruence ] | ].
  destruct (nonempty (env !! "BACNET_LOCAL_IP")) as [local_ip |];
    [ | exists false; split; [ done | dis; congruence ] ].
  destruct (nonempty (env !! "BACNET_DEVICE_IP")) as [device_ip |];
    [ | exists false; split; [ done | dis; congruence ] ].
  destruct (device_id =? 0); [ exists false; split; [ done | dis; congruence ] | ].
  match goal with |- context [EL.connect ?st] =>
    pose proof (quiet_disconnects EL.connect st EL_connect_quiet) as Hq1;
    pose proof (EL_connect_outcome st) as Ho1;
    destruct (EL.connect st) as [[e1 | []] [c1 w1 tr1]]
  end; cbn [fst snd self world trace] in *; run_script;
    [ exists false; split; [ done | dis; congruence ] | ].
  match goal with |- context [EL.read_analog_value ?n ?st] =>
    pose proof (quiet_disconnects (EL.read_analog_value n) st
                  (EL_read_analog_value_quiet n)) as Hq2;
    destruct (EL_operations_keep_self st) as (Hk2 & _);
    specialize (Hk2 n);
    destruct (EL.read_analog_value n st) as [[e2 | v] [c2 w2 tr2]]
  end; cbn [fst snd self world trace] in *; run_script;
    [ exists false; split; [ done | dis; congruence ] | ].
  match goal with |- context [EL.get_device_info ?st] =>
    pose proof (quiet_disconnects EL.get_device_info st
                  EL_get_device_info_quiet) as Hq3;
    destruct (EL_operations_keep_self st) as (_ & _ & _ & _ & Hk3);
    destruct (EL.get_device_info st) as [[e3 | info] [c3 w3 tr3]]
  end; cbn [fst snd self world trace] in *; run_script;
    [ exists false; split; [ done | dis; congruence ] | ].
  destruct (info !! "name") as [name |]; run_script;
    [ | exists false; split; [ done | dis; congruence ] ].
  destruct (info !! "device_id") as [id |]; run_script;
    [ | exists false; split; [ done | dis; congruence ] ].
  destruct (info !! "vendor") as [vendor |]; run_script;
    [ | exists false; split; [ done | dis; congruence ] ].
  destruct (info !! "model") as [model |]; run_script;
    [ | exists false; split; [ done | dis; congruence ] ].
  subst c2 c3. destruct Ho1 as [b Hb].
  match goal with |- context [EL.disconnect ?st] =>
    pose proof (EL_disconnect_returns st) as Hr4;
    pose proof (EL_disconnect_disconnects st b Hb) as Hd4;
    destruct (EL.disconnect st) as [r4 [c4 w4 tr4]]
  end; cbn [fst snd self world trace] in *; subst r4; run_script.
  exists true. split; [ done | ]. exists b. dis. congruence.
Qed.


End Script.

(** ** The rest of the harness on the simulated devices *)

Section More_simulation.
Import Sim SimObjects.

Lemma session_connected_reachable : EL.reachable session_client session_connected.
Proof. apply EL.reach_invoke, EL.reach_init. Qed.

Lemma disconnect_swallows_library_failure_witness :
  fst (EL.disconnect SimFaulty.el_connected) = inr tt
  /\ self (snd (EL.disconnect SimFaulty.el_connected)) = self SimFaulty.el_connected.
Proof.
  edestruct (disconnect_swallows_library_failure SimFaulty.el_connected 3%N)
    as (Hr & Hs & _); [ vm_compute; reflexivity .. | ].
  exact (conj Hr Hs).
Defined.

Lemma disconnect_then_operations_are_refused_witness :
  EL.bacnet (self (snd (EL.disconnect el_connected))) = None
  /\ fst (EL.read_analog_value 1 (snd (EL.disconnect el_connected)))
     = inl EL.not_connected.
Proof.
  edestruct (disconnect_then_operations_are_refused el_connected 3%N)
    as (Hn & Hr & _); [ vm_compute; reflexivity .. | ].
  exact (conj Hn (Hr 1)).
Defined.

Lemma start_event_loop_guard_witness :
  EL._start_event_loop el_connected = (inr tt, el_connected)
  /\ EL.loop_thread (self (snd (EL._start_event_loop el_fresh))) = Some 1%N.
Proof.
  split.
  - destruct (start_event_loop_guard el_connected) as [Halive _].
    apply (Halive 1%N); vm_compute; reflexivity.
  - destruct (start_event_loop_guard el_fresh) as [_ Hdead].
    destruct (Hdead (or_introl eq_refl)) as (Ht & _).
    exact Ht.
Defined.

Lemma connect_outcome_witness :
  is_Some (EL.bacnet (self (snd (EL.connect el_fresh)))).
Proof.
  destruct (connect_outcome el_fresh) as [Hok _].
  apply Hok. vm_compute. reflexivity.
Defined.

Lemma read_property_passes_answer_witness :
  fst (EL.read_property "analogValue" 1 "description" el_connected)
  = inl (mkExn (OtherError "UnknownPropertyError") "unknownProperty").
Proof.
  destruct (read_property_passes_answer el_connected 3%N "analogValue" 1
              "description" eq_refl) as (Hr & _).
  rewrite Hr. vm_compute. reflexivity.
Defined.

Lemma whois_connected_witness :
  fst (EL.whois el_connected) = inr []
  /\ calls (trace (snd (EL.whois el_connected)))
     = (calls (trace el_connected) ++ [EvWhois 3%N; EvSleep 3; EvDevices 3%N])%list.
Proof.
  pose proof (whois_connected el_connected 3%N eq_refl) as Hw.
  exact Hw.
Defined.

Lemma reachable_keeps_configuration_witness :
  EL.local_ip (self el_connected) = "10.0.0.2"
  /\ EL.device_id (self el_connected) = 1234.
Proof.
  destruct (reachable_keeps_configuration "10.0.0.2" "10.0.0.5" 1234 None None
              el_connected el_connected_reachable) as (Hl & _ & Hid & _).
  exact (conj Hl Hid).
Defined.

Lemma BACnetClient_disconnect_outcomes_witness :
  fst (BC.disconnect bc_connected) = inr tt
  /\ BC.bacnet (self (snd (BC.disconnect bc_connected))) = None
  /\ BC.device (self (snd (BC.disconnect bc_connected))) = None.
Proof.
  pose proof (BACnetClient_disconnect_outcomes bc_connected 1%N eq_refl) as Ho.
  destruct Ho as (Hr & Hs & _).
  rewrite Hs. exact (conj Hr (conj eq_refl eq_refl)).
Defined.

Lemma BACnetClient_accessors_without_device_witness :
  fst (BC.read_analog_value 1 bc_fresh)
  = inl (mkExn TypeError "'NoneType' object is not subscriptable").
Proof.
  destruct (BACnetClient_accessors_without_device bc_fresh 1 test_value None
              eq_refl) as ((Hr & _) & _).
  exact Hr.
Defined.

Lemma BACnetClient_read_property_outcomes_witness :
  fst (BQ.read_property "analogValue" 1 "units" bc_connected)
  = inr (VStr "degreesCelsius")
  /\ fst (BQ.read_property "analogValue" 1 "covIncrement" bc_connected) = inr VNone
  /\ fst (BQ.read_property "analogValue" 7 "units" bc_connected)
     = inl (mkExn ValueError "Point analogValue:7 not found").
Proof.
  split_and!.
  - rewrite (BACnetClient_read_property_outcomes bc_connected 2%N "analogValue"
               1 "units" eq_refl).
    vm_compute. reflexivity.
  - rewrite (BACnetClient_read_property_outcomes bc_connected 2%N "analogValue"
               1 "covIncrement" eq_refl).
    vm_compute. reflexivity.
  - rewrite (BACnetClient_read_property_outcomes bc_connected 2%N "analogValue"
               7 "units" eq_refl).
    vm_compute. reflexivity.
Defined.

Lemma bacnet_config_requires_witness :
  exists e, Conftest.bacnet_config dotenv_without_id = inl e
            /\ exn_class e = ValueError.
Proof.
  apply bacnet_config_requires. right. right. vm_compute. reflexivity.
Defined.

Lemma bacnet_config_defaults_witness :
  Conftest.device_port dotenv_config = 47808
  /\ Conftest.analog_value_instance dotenv_config = 1.
Proof.
  assert (Conftest.bacnet_config dotenv = inr dotenv_config) as Hc
    by (vm_compute; reflexivity).
  destruct (bacnet_config_defaults dotenv dotenv_config Hc)
    as (Hport & _ & Hinst & _).
  exact (conj (Hport eq_refl) (Hinst eq_refl)).
Defined.

Lemma test_device_connection_cannot_fail_witness :
  fst (TD.test_device_connection dotenv_config session_connected) = inr tt.
Proof.
  apply (test_device_connection_cannot_fail dotenv_config session_client).
  - vm_compute. reflexivity.
  - exact session_connected_reachable.
Defined.

Lemma retry_fails_only_when_exhausted_witness :
  fst (T.test_read_analog_value_with_retry dotenv_config el_fresh)
  = inr (T.Failed "Failed to read after 3 attempts")
  /\ T.test_steps
       (trace (snd (T.test_read_analog_value_with_retry dotenv_config el_fresh)))
     = T.attempts_from 1 3 3 2.
Proof.
  assert (fst (T.test_read_analog_value_with_retry dotenv_config el_fresh)
          = inr (T.Failed "Failed to read after 3 attempts")) as Hf
    by (vm_compute; reflexivity).
  destruct (retry_fails_only_when_exhausted dotenv_config el_fresh _ Hf)
    as (_ & _ & Hsteps).
  exact (conj Hf Hsteps).
Defined.

Lemma retry_without_attempts_passes_witness :
  T.test_read_analog_value_with_retry config_without_retries el_fresh
  = (inr T.Passed, el_fresh).
Proof.
  apply retry_without_attempts_passes. vm_compute. discriminate.
Defined.

Lemma retry_passes_on_first_answer_witness :
  fst (T.test_read_analog_value_with_retry dotenv_config el_connected)
  = inr T.Passed.
Proof.
  edestruct (retry_passes_on_first_answer dotenv_config el_connected 3%N)
    as (Hr & _); [ vm_compute; try discriminate; reflexivity .. | ].
  exact Hr.
Defined.

Lemma original_value_teardown_witness :
  network_events
    (trace (snd (CF.original_analog_value_teardown dotenv_config test_value
                   el_connected)))
  = (network_events (trace el_connected)
     ++ [EvWrite 3%N "10.0.0.5:1234 analogValue 1 presentValue 75.5 - 8"])%list.
Proof.
  destruct (original_value_teardown dotenv_config test_value el_connected)
    as (_ & Hw).
  rewrite (Hw 3%N eq_refl). vm_compute. reflexivity.
Defined.


End More_simulation.
